(** * askai: the provider adapter, the configuration store and the command
      orchestrator, embedded from the Python sources

    Source files embedded here:
    - [askai/providers/base.py]   (the [Provider] interface, [validate_model])
    - [askai/providers/claude.py] (the model tables, [_resolve_model],
      [build_command])
    - [askai/config.py]           ([ConfigManager]: load, merge, get)
    - [askai/cli.py]              ([parse_args], [validate_args])
    - [askai/main.py]             ([get_provider], [list_providers],
      [list_models], [main])

    Conventions.  A Python [str] is a Rocq [string]; [str.lower] is the
    lower-casing of the letters 'A'..'Z' and leaves every other character
    alone, which is what Python does on ASCII text.  A value read from the
    JSON file is a [json]; JSON numbers are the integers.  A Python [dict]
    whose iteration order is observable (the model tables, whose keys are
    printed) is an association list; the configuration mapping, only ever
    looked up, is a [gmap].  Raising is the [Raise] outcome; printing, writing
    the configuration file and spawning the external tool are [event]s
    collected in order. *)

From Stdlib Require Import Ascii String.
From stdpp Require Import gmap strings list fin_maps pretty.

(** ** Python values and exceptions *)

#[warnings="-register-all"]
Inductive json : Type :=
| JNull
| JBool (b : bool)
| JNum (z : Z)
| JStr (s : string)
| JList (l : list json)
| JObj (m : gmap string json).

(** The exceptions the program can raise.  [SystemExit] is not an
    [Exception] in Python, so the handler of [main] lets it through. *)
Inductive exn : Type :=
| ValueError (msg : string)
| AttributeError (ty attr : string)   (* '<ty>' object has no attribute '<attr>' *)
| UnhashableType (ty : string)        (* TypeError: unhashable type: '<ty>' *)
| SystemExit (code : Z)
| OtherError (text : string).         (* any other Exception, with its str() *)

Inductive outcome (A : Type) : Type :=
| Return (a : A)
| Raise (e : exn).
Arguments Return {A} a.
Arguments Raise {A} e.

(** ** String helpers: [str.lower], [sep.join], [in] on a dict *)

Definition lower_ascii (c : ascii) : ascii :=
  let n := N_of_ascii c in
  if ((65 <=? n) && (n <=? 90))%N then ascii_of_N (n + 32) else c.

Fixpoint lower (s : string) : string :=
  match s with
  | EmptyString => EmptyString
  | String c s' => String (lower_ascii c) (lower s')
  end.

Definition join (sep : string) (parts : list string) : string :=
  String.concat sep parts.

(** An insertion-ordered dict with string keys and values. *)
Definition odict : Type := list (string * string).

Fixpoint dict_get (k : string) (d : odict) : option string :=
  match d with
  | [] => None
  | (k', v) :: d' => if decide (k = k') then Some v else dict_get k d'
  end.

Definition dict_keys (d : odict) : list string := d.*1.
Definition dict_values (d : odict) : list string := d.*2.

(** [needle in hay] on strings. *)
Definition occurs_in (needle hay : string) : bool :=
  match String.index 0 needle hay with Some _ => true | None => false end.

(** ** providers/base.py: the provider interface *)

Record Provider : Type := {
  name : string;
  build_command : string → option string → outcome (list string);
  get_default_model : string;
  get_available_models : list string;
  (* the argument is shutil.which: is the command on the search path? *)
  check_available : (string → bool) → bool;
  to_str : string;
}.

(** [Provider.validate_model]: [model in self.get_available_models()]. *)
Definition validate_model (p : Provider) (model : string) : bool :=
  bool_decide (model ∈ get_available_models p).

(** ** providers/claude.py *)

Module ClaudeProvider.

Definition MODELS : odict :=
  [ ("haiku", "claude-haiku-4-5-20251001");
    ("sonnet", "claude-sonnet-4-5-20250929");
    ("opus", "claude-opus-4-1-20250805") ].

Definition MODEL_ALIASES : odict :=
  [ ("haiku", "haiku");
    ("sonnet", "sonnet");
    ("opus", "opus");
    ("haiku-4", "haiku");
    ("haiku-4-5", "haiku");
    ("4-5-haiku", "haiku");
    ("sonnet-4", "sonnet");
    ("sonnet-4-5", "sonnet");
    ("4-5-sonnet", "sonnet");
    ("opus-4", "opus");
    ("opus-4-1", "opus");
    ("4-1-opus", "opus") ].

Definition name : string := "claude".

Definition get_default_model : string := "haiku".

Definition get_available_models : list string := dict_keys MODELS.

Definition check_available (which : string → bool) : bool := which "claude".

(** The text of the [ValueError] raised at lines 97-99. *)
Definition unknown_model (model : string) : string :=
  "Unknown model '" +:+ model +:+ "'. Available: "
    +:+ join ", " get_available_models.

Definition _resolve_model (model : option string) : outcome string :=
  let model := match model with None => get_default_model | Some m => m end in
  (* Normalize to lowercase *)
  let model := lower model in
  (* Try alias resolution first *)
  let model := match dict_get model MODEL_ALIASES with
               | Some target => target
               | None => model
               end in
  (* Check if it's a valid model *)
  match dict_get model MODELS with
  | None => Raise (ValueError (unknown_model model))
  | Some model_id => Return model_id
  end.

Definition concise_prefix : string := "Answer concisely in under 100 words: ".

Definition build_command (prompt : string) (model : option string)
  : outcome (list string) :=
  match _resolve_model model with
  | Raise e => Raise e
  | Return model_id =>
      let concise_prompt := concise_prefix +:+ prompt in
      Return [ "claude"; "--model"; model_id; concise_prompt ]
  end.

Definition to_str : string :=
  "claude (default: " +:+ get_default_model +:+ ", available: "
    +:+ join ", " get_available_models +:+ ")".

Definition provider : Provider :=
  Build_Provider name build_command get_default_model get_available_models
    check_available to_str.

End ClaudeProvider.


(** ** Effects: what the program prints, writes and spawns *)

Inductive event : Type :=
| Stdout (line : string)                  (* print(line) *)
| Stderr (line : string)                  (* print(line, file=sys.stderr) *)
| StdoutConfig (cfg : gmap string json)   (* print(config): json.dumps(_config, indent=2) *)
| ParserError (message : string)          (* parser.error: usage and message on stderr *)
| WriteConfig (cfg : gmap string json)    (* _save: the file rewritten, mode 0o600 *)
| Spawn (command : list string).          (* subprocess.run(command) *)

(** A computation that emits events and returns or raises. *)
Definition M (A : Type) : Type := list event * outcome A.

Global Instance M_ret : MRet M := λ A a, ([], Return a).
Global Instance M_bind : MBind M := λ A B f m,
  match m with
  | (t, Return a) => let '(t', r) := f a in (t ++ t', r)
  | (t, Raise e) => (t, Raise e)
  end.

Definition emit (ev : event) : M unit := ([ev], Return tt).
Definition raise {A : Type} (e : exn) : M A := ([], Raise e).
Definition lift {A : Type} (o : outcome A) : M A := ([], o).

Fixpoint for_each {A : Type} (body : A → M unit) (items : list A) : M unit :=
  match items with
  | [] => mret tt
  | x :: rest => body x ;; for_each body rest
  end.

(** What the program sees of its environment. *)
Inductive config_file_state : Type :=
| FileAbsent                        (* config_path.exists() is False *)
| FileUnreadable (err : string)     (* JSONDecodeError or OSError, with its text *)
| FileJson (v : json)               (* json.load succeeded *)
| FileRaises (text : string).       (* open or json.load raised something else:
                                       UnicodeDecodeError, RecursionError, ... *)

Record world : Type := {
  cfg_path : string;                (* str(config.config_path) *)
  cfg_file : config_file_state;
  save_error : option string;       (* the OSError text when _save cannot write *)
  which : string → bool;            (* shutil.which(cmd) is not None *)
  returncode : list string → Z;     (* exit status of the spawned command *)
}.

(** ** Python's dynamic typing: truthiness, [or], [str()], type names *)

Definition truthy (v : json) : bool :=
  match v with
  | JNull => false
  | JBool b => b
  | JNum z => negb (z =? 0)%Z
  | JStr s => negb (bool_decide (s = EmptyString))
  | JList l => match l with [] => false | _ => true end
  | JObj m => negb (bool_decide (m = ∅))
  end.

Definition py_or (a b : json) : json := if truthy a then a else b.

(** An [Optional[str]] attribute as a Python value. *)
Definition of_opt (o : option string) : json :=
  match o with None => JNull | Some s => JStr s end.

Definition type_name (v : json) : string :=
  match v with
  | JNull => "NoneType"
  | JBool _ => "bool"
  | JNum _ => "int"
  | JStr _ => "str"
  | JList _ => "list"
  | JObj _ => "dict"
  end.

(** [str(v)] for the hashable values (lists and dicts are never formatted:
    the membership test on them raises first). *)
Definition py_str (v : json) : string :=
  match v with
  | JNull => "None"
  | JBool true => "True"
  | JBool false => "False"
  | JNum z => pretty z
  | JStr s => s
  | JList _ => "[...]"
  | JObj _ => "{...}"
  end.

(** [str(e)] of an exception. *)
Definition exn_str (e : exn) : string :=
  match e with
  | ValueError msg => msg
  | AttributeError ty attr =>
      "'" +:+ ty +:+ "' object has no attribute '" +:+ attr +:+ "'"
  | UnhashableType ty => "unhashable type: '" +:+ ty +:+ "'"
  | SystemExit code => pretty code
  | OtherError text => text
  end.

(** [str.isspace] on the ASCII range, and [str.strip]. *)
Definition is_space (c : ascii) : bool :=
  let n := N_of_ascii c in
  (((9 <=? n) && (n <=? 13)) || ((28 <=? n) && (n <=? 32)))%N.

Fixpoint lstrip (s : string) : string :=
  match s with
  | EmptyString => EmptyString
  | String c s' => if is_space c then lstrip s' else s
  end.

Fixpoint rstrip (s : string) : string :=
  match s with
  | EmptyString => EmptyString
  | String c s' =>
      match rstrip s' with
      | EmptyString => if is_space c then EmptyString else String c EmptyString
      | r => String c r
      end
  end.

Definition strip (s : string) : string := rstrip (lstrip s).

(** [s.split(sep)] for a one-character separator. *)
Fixpoint split (sep : ascii) (s : string) : list string :=
  match s with
  | EmptyString => [EmptyString]
  | String c s' =>
      if decide (c = sep) then EmptyString :: split sep s'
      else match split sep s' with
           | piece :: rest => String c piece :: rest
           | [] => [String c EmptyString]
           end
  end.

(** ** config.py: the configuration store *)

Module ConfigManager.

Definition DEFAULT_CONFIG : gmap string json :=
  <["default_provider" := JStr "claude"]>
  (<["default_models" :=
       JObj (<["claude" := JStr "haiku"]>
             (<["gemini" := JStr "gemini-flash"]> ∅))]>
  (<["max_response_words" := JNum 100]> ∅)).

Record t : Type := {
  config_path : string;
  _config : gmap string json;
}.

(** One round of the loop of [_merge_with_defaults]: a nested dict is
    merged key by key over the default's, [{**merged[key], **value}];
    anything else replaces the entry. *)
Definition merge_item (key : string) (value : json)
    (merged : gmap string json) : gmap string json :=
  match merged !! key, value with
  | Some (JObj d), JObj u => <[key := JObj (u ∪ d)]> merged
  | _, _ => <[key := value]> merged
  end.

Definition merge_dict (loaded : gmap string json) : gmap string json :=
  map_fold merge_item DEFAULT_CONFIG loaded.

(** [loaded_config] is whatever [json.load] returned; [.items()] exists
    on a dict only. *)
Definition _merge_with_defaults (loaded_config : json)
  : outcome (gmap string json) :=
  match loaded_config with
  | JObj loaded => Return (merge_dict loaded)
  | v => Raise (AttributeError (type_name v) "items")
  end.

Definition _save (w : world) (cfg : gmap string json) : M unit :=
  match save_error w with
  | None => emit (WriteConfig cfg)
  | Some err =>
      emit (Stdout ("Warning: Failed to save config to " +:+ cfg_path w
                      +:+ ": " +:+ err))
  end.

Definition _load (w : world) : M (gmap string json) :=
  match cfg_file w with
  | FileJson loaded_config => lift (_merge_with_defaults loaded_config)
  | FileUnreadable err =>
      emit (Stdout ("Warning: Failed to load config from " +:+ cfg_path w
                      +:+ ": " +:+ err)) ;;
      emit (Stdout "Using default configuration.") ;;
      mret DEFAULT_CONFIG
  | FileRaises text =>
      (* not an OSError, not a JSONDecodeError: the except clause lets it go *)
      raise (OtherError text)
  | FileAbsent =>
      _save w DEFAULT_CONFIG ;;
      mret DEFAULT_CONFIG
  end.

(** [ConfigManager()] with the default path. *)
Definition init (w : world) : M t :=
  cfg ← _load w ;
  mret {| config_path := cfg_path w; _config := cfg |}.

(** The loop of [get]: descend one key at a time, give [default] back at
    the first missing key or non-dict value. *)
Fixpoint walk (keys : list string) (value default : json) : json :=
  match keys with
  | [] => value
  | k :: keys' =>
      match value with
      | JObj m =>
          match m !! k with
          | Some v => walk keys' v default
          | None => default
          end
      | _ => default
      end
  end.

Definition get (self : t) (key : string) (default : json) : json :=
  walk (split "." key) (JObj (_config self)) default.

Definition get_default_provider (self : t) : json :=
  get self "default_provider" (JStr "claude").

Definition get_default_model (self : t) (provider : string) : json :=
  get self ("default_models." +:+ provider) JNull.

Definition get_max_response_words (self : t) : json :=
  get self "max_response_words" (JNum 100).

Definition reset_to_defaults (w : world) (self : t) : M t :=
  let self := {| config_path := config_path self; _config := DEFAULT_CONFIG |} in
  _save w (_config self) ;;
  mret self.

End ConfigManager.

(** ** cli.py: the parsed arguments and their validation *)

Module cli.

(** The [argparse.Namespace] the parser produces. *)
Record Namespace : Type := {
  prompt : option string;
  provider : option string;
  model : option string;
  list_providers : bool;
  list_models : option string;
  config_path : bool;
  config_show : bool;
  config_reset : bool;
  verbose : bool;
  dry_run : bool;
}.

(** [any([...])] *)
Definition any (flags : list bool) : bool := existsb id flags.

(** The check [parse_args] makes on what argparse returned. *)
Definition parse_args (parsed : Namespace) : M Namespace :=
  if negb (any [ list_providers parsed;
                 truthy (of_opt (list_models parsed));
                 config_path parsed;
                 config_show parsed;
                 config_reset parsed ])
  then
    if negb (truthy (of_opt (prompt parsed)))
    then emit (ParserError "the following arguments are required: prompt") ;;
         raise (SystemExit 2)
    else mret parsed
  else mret parsed.

Definition validate_args (args : Namespace) : outcome unit :=
  if truthy (of_opt (list_models args))
     && negb (truthy (of_opt (strip <$> list_models args)))
  then Raise (ValueError "--list-models requires a provider name")
  else
    if dry_run args
       && any [ config_path args; config_show args; config_reset args ]
    then Raise (ValueError "--dry-run cannot be used with configuration flags")
    else Return tt.

End cli.

(** ** main.py: the command orchestrator *)

Module main.

(** The registry of [get_provider]. *)
Definition providers : list (string * Provider) :=
  [ ("claude", ClaudeProvider.provider) ].

Fixpoint registry_get (k : string) (reg : list (string * Provider))
  : option Provider :=
  match reg with
  | [] => None
  | (k', p) :: reg' => if decide (k = k') then Some p else registry_get k reg'
  end.

(** [provider_name] is a [str] when it comes from the command line and any
    JSON value when it comes from the configuration; a list or a dict
    cannot be hashed for the membership test. *)
Definition get_provider (provider_name : json) : outcome Provider :=
  let unknown :=
    Raise (ValueError ("Unknown provider '" +:+ py_str provider_name
                         +:+ "'. Available: " +:+ join ", " providers.*1)) in
  match provider_name with
  | JList _ | JObj _ => Raise (UnhashableType (type_name provider_name))
  | JStr s =>
      match registry_get s providers with
      | Some p => Return p
      | None => unknown
      end
  | _ => unknown
  end.

(** U+2713 and U+2717, as UTF-8. *)
Definition check_mark : string :=
  String (ascii_of_nat 226) (String (ascii_of_nat 156)
    (String (ascii_of_nat 147) EmptyString)).
Definition cross_mark : string :=
  String (ascii_of_nat 226) (String (ascii_of_nat 156)
    (String (ascii_of_nat 151) EmptyString)).

Definition list_providers (w : world) : M unit :=
  let providers := [ "claude" ] in
  emit (Stdout "Available providers:") ;;
  for_each (λ provider_name,
      provider ← lift (get_provider (JStr provider_name)) ;
      let available :=
        if check_available provider (which w) then check_mark else cross_mark in
      emit (Stdout ("  " +:+ available +:+ " " +:+ to_str provider)))
    providers.

Definition list_models (provider_name : string) : M unit :=
  match get_provider (JStr provider_name) with
  | Return provider =>
      emit (Stdout ("Available models for " +:+ provider_name +:+ ":")) ;;
      for_each (λ model,
          let default :=
            if decide (model = get_default_model provider)
            then " (default)" else EmptyString in
          emit (Stdout ("  - " +:+ model +:+ default)))
        (get_available_models provider)
  | Raise (ValueError msg) =>
      emit (Stderr ("Error: " +:+ msg)) ;;
      raise (SystemExit 1)
  | Raise e => raise e
  end.

(** [args.model or config.get_default_model(provider_name)
     or provider.get_default_model()] *)
Definition determine_model (args : cli.Namespace) (config : ConfigManager.t)
    (provider_name : string) (provider : Provider) : json :=
  py_or (of_opt (cli.model args))
    (py_or (ConfigManager.get_default_model config provider_name)
           (JStr (get_default_model provider))).

(** [provider.build_command(args.prompt, model)] on a dynamically typed
    model: [model.lower()] exists on a [str] only. *)
Definition call_build_command (provider : Provider) (prompt : option string)
    (model : json) : outcome (list string) :=
  match model with
  | JStr m => build_command provider (py_str (of_opt prompt)) (Some m)
  | JNull => build_command provider (py_str (of_opt prompt)) None
  | v => Raise (AttributeError (type_name v) "lower")
  end.

(** The part of [main] after the configuration has been loaded and no
    informational or configuration flag applied. *)
Definition invoke (w : world) (args : cli.Namespace) (config : ConfigManager.t)
  : M Z :=
  let provider_name :=
    py_or (of_opt (cli.provider args)) (ConfigManager.get_default_provider config) in
  provider ← lift (get_provider provider_name) ;
  if negb (check_available provider (which w))
  then emit (Stderr ("Error: " +:+ py_str provider_name
                       +:+ " CLI not found. Please install it first.")) ;;
       raise (SystemExit 1)
  else
    let model := determine_model args config (py_str provider_name) provider in
    match call_build_command provider (cli.prompt args) model with
    | Raise (ValueError msg) =>
        emit (Stderr ("Error: " +:+ msg)) ;;
        raise (SystemExit 1)
    | Raise e => raise e
    | Return command =>
        (if cli.verbose args || cli.dry_run args
         then emit (Stderr ("Command: " +:+ join " " command))
         else mret tt) ;;
        if cli.dry_run args then mret 0%Z
        else emit (Spawn command) ;;
             mret (returncode w command)
    end.

(** The body of the [try] of [main]. *)
Definition main_body (w : world) (parsed : cli.Namespace) : M Z :=
  args ← cli.parse_args parsed ;
  lift (cli.validate_args args) ;;
  config ← ConfigManager.init w ;
  if cli.list_providers args then list_providers w ;; mret 0%Z
  else if truthy (of_opt (cli.list_models args))
  then list_models (py_str (of_opt (cli.list_models args))) ;; mret 0%Z
  else if cli.config_path args
  then emit (Stdout ("Configuration file: " +:+ ConfigManager.config_path config)) ;;
       mret 0%Z
  else if cli.config_show args
  then emit (StdoutConfig (ConfigManager._config config)) ;; mret 0%Z
  else if cli.config_reset args
  then config ← ConfigManager.reset_to_defaults w config ;
       emit (Stdout "Configuration reset to defaults") ;;
       emit (StdoutConfig (ConfigManager._config config)) ;;
       mret 0%Z
  else invoke w args config.

(** [sys.exit(main())]: the events of the run and the exit status of the
    process.  [except Exception] reports and returns 1; a [SystemExit]
    passes through with its code. *)
Definition main (w : world) (parsed : cli.Namespace) : list event * Z :=
  match main_body w parsed with
  | (t, Return code) => (t, code)
  | (t, Raise (SystemExit code)) => (t, code)
  | (t, Raise e) => (t ++ [Stderr ("Error: " +:+ exn_str e)], 1%Z)
  end.

End main.

(** ** Notions used to state the properties *)

(** Two characters are the same letter up to case. *)
Definition same_letter (a b : ascii) : bool :=
  let x := N_of_ascii a in
  let y := N_of_ascii b in
  ((x =? y) || ((65 <=? x) && (x <=? 90) && (y =? x + 32))
            || ((65 <=? y) && (y <=? 90) && (x =? y + 32)))%N.

(** [t] is a case variant of [s]: same length, same letters up to case. *)
Fixpoint case_variant (s t : string) : bool :=
  match s, t with
  | EmptyString, EmptyString => true
  | String a s', String b t' => same_letter a b && case_variant s' t'
  | _, _ => false
  end.

(** The canonical short name the alias table gives a model name. *)
Definition canonical_name (model : string) : option string :=
  dict_get (lower model) ClaudeProvider.MODEL_ALIASES.

(** What [_merge_with_defaults] leaves under a key the loaded file has:
    the loaded value, merged over the default's when both are dicts. *)
Definition merged_value (default : option json) (value : json) : json :=
  match default, value with
  | Some (JObj d), JObj u => JObj (u ∪ d)
  | _, _ => value
  end.

(** A loaded file with a third provider's default model and a key the
    defaults do not have. *)
Definition third_provider_config : gmap string json :=
  <["default_models" := JObj (<["openai" := JStr "gpt-4o"]> ∅)]>
  (<["theme" := JStr "dark"]> ∅).

(** The flags of an invocation, grouped as the specification groups them. *)
Definition config_flag (args : cli.Namespace) : bool :=
  cli.any [ cli.config_path args; cli.config_show args; cli.config_reset args ].

Definition info_or_config_flag (args : cli.Namespace) : bool :=
  cli.any [ cli.list_providers args;
            truthy (of_opt (cli.list_models args));
            cli.config_path args;
            cli.config_show args;
            cli.config_reset args ].

(** The model the configuration stores for a provider, if any. *)
Definition stored_model (config : ConfigManager.t) (provider : string)
  : option json :=
  match ConfigManager._config config !! "default_models" with
  | Some (JObj models) => models !! provider
  | _ => None
  end.

(** The precedence in the specification's words: the flag if supplied,
    otherwise the stored model, otherwise the built-in default. *)
Definition stated_precedence (flag : option string) (stored : option json)
    (builtin : string) : json :=
  match flag with
  | Some m => JStr m
  | None =>
      match stored with
      | Some v => v
      | None => JStr builtin
      end
  end.

(** The same precedence where an empty flag and a stored value that Python
    takes for false (the empty string, null, 0, false, an empty list or dict) count as not
    given. *)
Definition or_precedence (flag : option string) (stored : option json)
    (builtin : string) : json :=
  let fallback :=
    match stored with
    | Some v => if truthy v then v else JStr builtin
    | None => JStr builtin
    end in
  match flag with
  | Some m => if decide (m = EmptyString) then fallback else JStr m
  | None => fallback
  end.

(** Two configuration mappings that differ at most in max_response_words. *)
Definition same_but_max_words (c1 c2 : gmap string json) : Prop :=
  delete "max_response_words" c1 = delete "max_response_words" c2.

(** The world [w] with a configuration file that holds [v]. *)
Definition with_config_file (w : world) (v : json) : world :=
  {| cfg_path := cfg_path w;
     cfg_file := FileJson v;
     save_error := save_error w;
     which := which w;
     returncode := returncode w |}.

(** The events that show the command: what is spawned, and what goes to the
    diagnostic stream. *)
Definition is_command_event (ev : event) : bool :=
  match ev with
  | Spawn _ | Stderr _ => true
  | _ => false
  end.

Definition command_events (t : list event) : list event :=
  List.filter is_command_event t.

(** Two computations show the same commands and end the same way. *)
Definition same_commands {A : Type} (m1 m2 : M A) : Prop :=
  command_events m1.1 = command_events m2.1 ∧ m1.2 = m2.2.

(** Example invocations and environments. *)
Definition plain_args (prompt : string) : cli.Namespace :=
  {| cli.prompt := Some prompt;
     cli.provider := None;
     cli.model := None;
     cli.list_providers := false;
     cli.list_models := None;
     cli.config_path := false;
     cli.config_show := false;
     cli.config_reset := false;
     cli.verbose := false;
     cli.dry_run := false |}.

(** askai --dry-run --list-providers *)
Definition dry_run_list_providers : cli.Namespace :=
  {| cli.prompt := None;
     cli.provider := None;
     cli.model := None;
     cli.list_providers := true;
     cli.list_models := None;
     cli.config_path := false;
     cli.config_show := false;
     cli.config_reset := false;
     cli.verbose := false;
     cli.dry_run := true |}.

(** askai --dry-run --config-reset *)
Definition dry_run_config_reset : cli.Namespace :=
  {| cli.prompt := None;
     cli.provider := None;
     cli.model := None;
     cli.list_providers := false;
     cli.list_models := None;
     cli.config_path := false;
     cli.config_show := false;
     cli.config_reset := true;
     cli.verbose := false;
     cli.dry_run := true |}.

(** askai -m EMPTY "hi", the model given as the empty string *)
Definition empty_model_args : cli.Namespace :=
  {| cli.prompt := Some "hi";
     cli.provider := None;
     cli.model := Some EmptyString;
     cli.list_providers := false;
     cli.list_models := None;
     cli.config_path := false;
     cli.config_show := false;
     cli.config_reset := false;
     cli.verbose := false;
     cli.dry_run := false |}.

(** A configuration file that stores sonnet for claude. *)
Definition sonnet_file : gmap string json :=
  <["default_models" := JObj (<["claude" := JStr "sonnet"]> ∅)]> ∅.

Definition sonnet_config : ConfigManager.t :=
  {| ConfigManager.config_path := "/home/u/.config/askai/config.json";
     ConfigManager._config := ConfigManager.merge_dict sonnet_file |}.

(** The same file asking for 20 words, and for 500. *)
Definition words_20_file : gmap string json :=
  <["max_response_words" := JNum 20]> sonnet_file.
Definition words_500_file : gmap string json :=
  <["max_response_words" := JNum 500]> sonnet_file.

(** An environment with the claude tool installed, the configuration file
    in the given state, and a tool that exits with status 0. *)
Definition example_world (file : config_file_state) : world :=
  {| cfg_path := "/home/u/.config/askai/config.json";
     cfg_file := file;
     save_error := None;
     which := λ cmd, bool_decide (cmd = "claude");
     returncode := λ _, 0%Z |}.

(** ** config.py: [set], with the sharing that [DEFAULT_CONFIG.copy()] makes

    [dict.copy()] is shallow: a manager whose [_config] comes from
    [DEFAULT_CONFIG.copy()] holds, under default_models, the very dict
    object of the class attribute, and [set] writes through it.  The state
    below is one manager together with that class-level dict: [own] is the
    top level of [_config], [shares_models] tells whether its
    default_models entry is the class-level dict, [class_models] is the
    content of that dict.  (Merging a loaded file is not part of this
    module; values given to [set] are JSON values.) *)

Module ConfigStore.

(** The loop of [set] and its final assignment, below a dict that nothing
    else refers to: every key but the last is entered, a missing or
    non-dict entry being replaced by a new dict; the last key receives the
    value. *)
Fixpoint set_keys (keys : list string) (value : json)
    (config : gmap string json) : gmap string json :=
  match keys with
  | [] => config
  | k :: rest =>
      match rest with
      | [] => <[k := value]> config
      | _ :: _ =>
          let child :=
            match config !! k with
            | Some (JObj m) => m
            | _ => ∅
            end in
          <[k := JObj (set_keys rest value child)]> config
      end
  end.

Record state : Type := {
  class_models : gmap string json;
  own : gmap string json;
  shares_models : bool;
}.

(** The content of the class-level dict when the module is imported. *)
Definition DEFAULT_MODELS : gmap string json :=
  <["claude" := JStr "haiku"]> (<["gemini" := JStr "gemini-flash"]> ∅).

(** [self._config], read through the shared entry. *)
Definition contents (s : state) : gmap string json :=
  if shares_models s
  then <["default_models" := JObj (class_models s)]> (own s)
  else own s.

(** [self._config = self.DEFAULT_CONFIG.copy()] *)
Definition copy_defaults (s : state) : state :=
  {| class_models := class_models s;
     own := <["default_provider" := JStr "claude"]>
            (<["max_response_words" := JNum 100]> ∅);
     shares_models := true |}.

(** A manager made from the defaults in a process where nothing has written
    to the class-level dict yet. *)
Definition fresh : state :=
  copy_defaults {| class_models := DEFAULT_MODELS; own := ∅; shares_models := false |}.

(** The assignments of [set] on the state. *)
Definition assign (keys : list string) (value : json) (s : state) : state :=
  match keys with
  | [] => s
  | k :: rest =>
      match rest with
      | [] =>
          {| class_models := class_models s;
             own := <[k := value]> (own s);
             shares_models :=
               shares_models s && negb (bool_decide (k = "default_models")) |}
      | _ :: _ =>
          if shares_models s && bool_decide (k = "default_models")
          then {| class_models := set_keys rest value (class_models s);
                  own := own s;
                  shares_models := true |}
          else {| class_models := class_models s;
                  own := set_keys keys value (own s);
                  shares_models := shares_models s |}
      end
  end.

Definition get (s : state) (key : string) (default : json) : json :=
  ConfigManager.walk (split "." key) (JObj (contents s)) default.

Definition set (w : world) (s : state) (key : string) (value : json)
    (save : bool) : M state :=
  let s := assign (split "." key) value s in
  (if save then ConfigManager._save w (contents s) else mret tt) ;;
  mret s.

Definition get_default_provider (s : state) : json :=
  get s "default_provider" (JStr "claude").

Definition get_default_model (s : state) (provider : string) : json :=
  get s ("default_models." +:+ provider) JNull.

Definition set_default_provider (w : world) (s : state) (provider : string)
  : M state :=
  set w s "default_provider" (JStr provider) true.

Definition set_default_model (w : world) (s : state) (provider model : string)
  : M state :=
  set w s ("default_models." +:+ provider) (JStr model) true.

Definition reset_to_defaults (w : world) (s : state) : M state :=
  let s := copy_defaults s in
  ConfigManager._save w (contents s) ;;
  mret s.

End ConfigStore.

(** ** More notions used to state the properties *)

(** The commands a run spawned, in order. *)
Fixpoint spawned (t : list event) : list (list string) :=
  match t with
  | [] => []
  | Spawn command :: t' => command :: spawned t'
  | _ :: t' => spawned t'
  end.

(** The world [w] with the configuration file in another state. *)
Definition with_file_state (w : world) (st : config_file_state) : world :=
  {| cfg_path := cfg_path w;
     cfg_file := st;
     save_error := save_error w;
     which := which w;
     returncode := returncode w |}.

(** The world [w] with another answer to what is on the search path. *)
Definition with_which (w : world) (on_path : string → bool) : world :=
  {| cfg_path := cfg_path w;
     cfg_file := cfg_file w;
     save_error := save_error w;
     which := on_path;
     returncode := returncode w |}.

(** Every character of [s] is white space. *)
Fixpoint all_space (s : string) : bool :=
  match s with
  | EmptyString => true
  | String c s' => is_space c && all_space s'
  end.

(** Two key paths part ways: at some position they have different keys,
    and agree before it. *)
Fixpoint diverge (keys keys' : list string) : bool :=
  match keys, keys' with
  | k :: rest, k' :: rest' =>
      if decide (k = k') then diverge rest rest' else true
  | _, _ => false
  end.

(** The arguments are accepted by [parse_args] and [validate_args]. *)
Definition accepted (args : cli.Namespace) : Prop :=
  cli.parse_args args = ([], Return args)
  ∧ cli.validate_args args = Return tt.

(** askai -p gemini "hi" *)
Definition gemini_args : cli.Namespace :=
  {| cli.prompt := Some "hi";
     cli.provider := Some "gemini";
     cli.model := None;
     cli.list_providers := false;
     cli.list_models := None;
     cli.config_path := false;
     cli.config_show := false;
     cli.config_reset := false;
     cli.verbose := false;
     cli.dry_run := false |}.

(** askai --list-models NAME *)
Definition list_models_args (provider_name : string) : cli.Namespace :=
  {| cli.prompt := None;
     cli.provider := None;
     cli.model := None;
     cli.list_providers := false;
     cli.list_models := Some provider_name;
     cli.config_path := false;
     cli.config_show := false;
     cli.config_reset := false;
     cli.verbose := false;
     cli.dry_run := false |}.

(** askai --dry-run -v "hi" *)
Definition dry_run_args : cli.Namespace :=
  {| cli.prompt := Some "hi";
     cli.provider := None;
     cli.model := None;
     cli.list_providers := false;
     cli.list_models := None;
     cli.config_path := false;
     cli.config_show := false;
     cli.config_reset := false;
     cli.verbose := true;
     cli.dry_run := true |}.

(** An environment like [example_world] where the claude tool is missing. *)
Definition no_tool_world (file : config_file_state) : world :=
  with_which (example_world file) (λ _, false).

(** What a run can look like: either nothing is spawned, or the run ends by
    spawning one command built from the prompt and returns its status. *)
Definition run_shape (w : world) (args : cli.Namespace) (r : M Z) : Prop :=
  spawned r.1 = []
  ∨ ∃ pre command model_id p,
      r = (pre ++ [Spawn command], Return (returncode w command))
      ∧ spawned pre = []
      ∧ command = [ "claude"; "--model"; model_id;
                    "Answer concisely in under 100 words: " +:+ p ]
      ∧ model_id ∈ dict_values ClaudeProvider.MODELS
      ∧ cli.prompt args = Some p
      ∧ cli.dry_run args = false
      ∧ which w "claude" = true
      ∧ info_or_config_flag args = false.

(** askai --list-providers --list-models claude --config-show "hi" *)
Definition list_providers_args : cli.Namespace :=
  {| cli.prompt := Some "hi";
     cli.provider := None;
     cli.model := None;
     cli.list_providers := true;
     cli.list_models := Some "claude";
     cli.config_path := false;
     cli.config_show := true;
     cli.config_reset := false;
     cli.verbose := false;
     cli.dry_run := false |}.

(** askai --config-reset *)
Definition config_reset_args : cli.Namespace :=
  {| cli.prompt := None;
     cli.provider := None;
     cli.model := None;
     cli.list_providers := false;
     cli.list_models := None;
     cli.config_path := false;
     cli.config_show := false;
     cli.config_reset := true;
     cli.verbose := false;
     cli.dry_run := false |}.

(** * Properties *)

(** ** Lower-casing and case variants *)

Lemma lower_ascii_upper (c : ascii) :
  (65 ≤ N_of_ascii c ≤ 90)%N → lower_ascii c = ascii_of_N (N_of_ascii c + 32).
Proof.
  intros [H1 H2]. unfold lower_ascii.
  apply N.leb_le in H1. apply N.leb_le in H2. by rewrite H1, H2.
Qed.

Lemma lower_ascii_other (c : ascii) :
  ¬ (65 ≤ N_of_ascii c ≤ 90)%N → lower_ascii c = c.
Proof.
  intros H. unfold lower_ascii.
  destruct (65 <=? N_of_ascii c)%N eqn:E1; [|done].
  destruct (N_of_ascii c <=? 90)%N eqn:E2; [|done].
  apply N.leb_le in E1. apply N.leb_le in E2. lia.
Qed.

Lemma N_of_ascii_inj (a b : ascii) : N_of_ascii a = N_of_ascii b → a = b.
Proof.
  intros H. rewrite <- (ascii_N_embedding a), <- (ascii_N_embedding b).
  by rewrite H.
Qed.

Lemma same_letter_lower (a b : ascii) :
  same_letter a b = true ↔ lower_ascii a = lower_ascii b.
Proof.
  pose proof (N_ascii_bounded a) as Ba. pose proof (N_ascii_bounded b) as Bb.
  unfold same_letter; cbv zeta.
  rewrite !orb_true_iff, !andb_true_iff, !N.leb_le, !N.eqb_eq.
  split.
  - intros [[H | [[H1 H2] H3]] | [[H1 H2] H3]].
    + by rewrite (N_of_ascii_inj _ _ H).
    + rewrite (lower_ascii_upper a) by lia.
      rewrite (lower_ascii_other b) by lia.
      by rewrite <- H3, ascii_N_embedding.
    + rewrite (lower_ascii_upper b) by lia.
      rewrite (lower_ascii_other a) by lia.
      by rewrite <- H3, ascii_N_embedding.
  - intros H.
    destruct (decide (65 ≤ N_of_ascii a ≤ 90)%N) as [Ua | Ua];
      destruct (decide (65 ≤ N_of_ascii b ≤ 90)%N) as [Ub | Ub].
    + rewrite (lower_ascii_upper a), (lower_ascii_upper b) in H by done.
      apply (f_equal N_of_ascii) in H.
      rewrite !N_ascii_embedding in H by lia. left; left; lia.
    + rewrite (lower_ascii_upper a), (lower_ascii_other b) in H by done.
      apply (f_equal N_of_ascii) in H.
      rewrite N_ascii_embedding in H by lia. left; right; lia.
    + rewrite (lower_ascii_other a), (lower_ascii_upper b) in H by done.
      apply (f_equal N_of_ascii) in H.
      rewrite N_ascii_embedding in H by lia. right; lia.
    + rewrite !lower_ascii_other in H by done. left; left; by rewrite H.
Qed.

Lemma case_variant_lower (s t : string) :
  case_variant s t = true ↔ lower s = lower t.
Proof.
  revert t. induction s as [|a s IH]; intros [|b t]; simpl; try done.
  rewrite andb_true_iff, same_letter_lower, IH.
  split; [intros [-> ->]; done | intros H; by inversion H].
Qed.

Lemma lower_idempotent (s : string) : lower (lower s) = lower s.
Proof.
  induction s as [|a s IH]; simpl; [done|]. f_equal; [|done].
  apply same_letter_lower. pose proof (N_ascii_bounded a).
  destruct (decide (65 ≤ N_of_ascii a ≤ 90)%N) as [Ua | Ua].
  - rewrite (lower_ascii_upper a) by done. unfold same_letter; cbv zeta.
    rewrite N_ascii_embedding by lia.
    rewrite !orb_true_iff, !andb_true_iff, !N.leb_le, !N.eqb_eq. right; lia.
  - rewrite lower_ascii_other by done. unfold same_letter; cbv zeta.
    rewrite N.eqb_refl. done.
Qed.

(** ** Model resolution *)

Section Resolution.
Import ClaudeProvider.

Lemma available_models : get_available_models = ["haiku"; "sonnet"; "opus"].
Proof. reflexivity. Qed.

(** Every alias points at a key of [MODELS]. *)
Lemma alias_target (k c : string) :
  dict_get k MODEL_ALIASES = Some c → c ∈ get_available_models.
Proof.
  rewrite available_models. simpl.
  repeat case_decide; intros [= <-]; set_solver.
Qed.

(** Every key of [MODELS] is an alias of itself. *)
Lemma alias_self (s : string) :
  s ∈ get_available_models → dict_get s MODEL_ALIASES = Some s.
Proof.
  rewrite available_models, !elem_of_cons, elem_of_nil.
  intros [-> | [-> | [-> | []]]]; reflexivity.
Qed.

Lemma models_complete (s : string) :
  s ∈ get_available_models ↔ is_Some (dict_get s MODELS).
Proof.
  rewrite available_models, !elem_of_cons, elem_of_nil. simpl. split.
  - intros [-> | [-> | [-> | []]]]; eexists; reflexivity.
  - repeat case_decide; intros [? [=]]; subst; tauto.
Qed.

Lemma not_alias_not_model (k : string) :
  dict_get k MODEL_ALIASES = None → dict_get k MODELS = None.
Proof. simpl. repeat case_decide; congruence. Qed.

(** What [_resolve_model] does, by whether the lower-cased name is a key
    of the alias table. *)
Lemma resolve_alias (m c : string) :
  canonical_name m = Some c →
  ∃ model_id, dict_get c MODELS = Some model_id
              ∧ _resolve_model (Some m) = Return model_id.
Proof.
  unfold canonical_name. intros H.
  destruct (proj1 (models_complete c) (alias_target _ _ H)) as [model_id Hid].
  exists model_id. split; [done|].
  unfold _resolve_model. cbv zeta. rewrite H, Hid. done.
Qed.

Lemma resolve_unknown (m : string) :
  canonical_name m = None →
  _resolve_model (Some m) = Raise (ValueError (unknown_model (lower m))).
Proof.
  unfold canonical_name. intros H.
  unfold _resolve_model. cbv zeta. rewrite H.
  by rewrite (not_alias_not_model _ H).
Qed.

Lemma build_command_resolve (prompt : string) (model : option string) :
  build_command prompt model =
    match _resolve_model model with
    | Return model_id =>
        Return ["claude"; "--model"; model_id; concise_prefix +:+ prompt]
    | Raise e => Raise e
    end.
Proof. reflexivity. Qed.

End Resolution.

(** ** The provider adapter: claims about [build_command] *)

(** C1.  For the prompt "what is python?" with the model omitted, which
    resolves to the default model "haiku", [build_command] of the provider
    returns exactly the four arguments claude, --model,
    claude-haiku-4-5-20251001 and the prompt behind the conciseness
    instruction. *)
Theorem C1_what_is_python_command :
  get_default_model ClaudeProvider.provider = "haiku"
  ∧ build_command ClaudeProvider.provider "what is python?" None =
      Return [ "claude"; "--model"; "claude-haiku-4-5-20251001";
               "Answer concisely in under 100 words: what is python?" ].
Proof. split; reflexivity. Qed.

(** A short name is its own canonical name. *)
Lemma canonical_short_name (s : string) :
  s ∈ ClaudeProvider.get_available_models → canonical_name s = Some s.
Proof.
  intros Hs.
  assert (lower s = s) as Hlow.
  { revert Hs. rewrite available_models, !elem_of_cons, elem_of_nil.
    intros [-> | [-> | [-> | []]]]; reflexivity. }
  unfold canonical_name. rewrite Hlow. by apply alias_self.
Qed.

(** C3.  For every supported short model name, the alias table gives a
    canonical name, resolution of the short name succeeds with a canonical
    identifier, the one [MODELS] holds for that canonical name, and
    resolving the canonical name again succeeds with the same identifier
    (the canonical name is its own canonical name). *)
Theorem C3_resolution_idempotent (s : string) :
  s ∈ ClaudeProvider.get_available_models →
  ∃ c model_id,
    canonical_name s = Some c
    ∧ c ∈ ClaudeProvider.get_available_models
    ∧ dict_get c ClaudeProvider.MODELS = Some model_id
    ∧ model_id ∈ dict_values ClaudeProvider.MODELS
    ∧ ClaudeProvider._resolve_model (Some s) = Return model_id
    ∧ canonical_name c = Some c
    ∧ ClaudeProvider._resolve_model (Some c) = Return model_id.
Proof.
  intros Hs. pose proof (canonical_short_name s Hs) as Hc.
  destruct (resolve_alias _ _ Hc) as [model_id [Hid Hres]].
  exists s, model_id.
  split; [done|]. split; [done|]. split; [done|]. split; [|done].
  clear Hc Hres. revert Hid.
  rewrite available_models, !elem_of_cons, elem_of_nil in Hs.
  unfold dict_values.
  destruct Hs as [-> | [-> | [-> | []]]]; intros [= <-]; simpl;
    rewrite !elem_of_cons; tauto.
Qed.

Lemma C3_resolution_idempotent_witness :
  ∃ c model_id,
    canonical_name "sonnet" = Some c
    ∧ c ∈ ClaudeProvider.get_available_models
    ∧ dict_get c ClaudeProvider.MODELS = Some model_id
    ∧ model_id ∈ dict_values ClaudeProvider.MODELS
    ∧ ClaudeProvider._resolve_model (Some "sonnet") = Return model_id
    ∧ canonical_name c = Some c
    ∧ ClaudeProvider._resolve_model (Some c) = Return model_id.
Proof.
  apply (C3_resolution_idempotent "sonnet").
  rewrite available_models, !elem_of_cons. tauto.
Defined.

(** The same holds from any alias: one hop reaches a canonical name, and a
    second resolution from there changes nothing. *)
Lemma alias_resolution_idempotent (a c : string) :
  canonical_name a = Some c →
  canonical_name c = Some c
  ∧ ClaudeProvider._resolve_model (Some c) = ClaudeProvider._resolve_model (Some a).
Proof.
  intros Ha. pose proof (alias_target _ _ Ha) as Hc.
  pose proof (canonical_short_name c Hc) as Hcc.
  split; [done|].
  destruct (resolve_alias _ _ Ha) as [id [Hid ->]].
  destruct (resolve_alias _ _ Hcc) as [id' [Hid' ->]]. congruence.
Qed.

(** C6.  Resolution is case-insensitive: two model strings that are case
    variants of each other resolve to the same result, the same identifier
    or the same failure, and so do the commands built from them. *)
Theorem C6_resolution_case_insensitive (s t : string) :
  case_variant s t = true →
  ClaudeProvider._resolve_model (Some s) = ClaudeProvider._resolve_model (Some t)
  ∧ ∀ prompt, ClaudeProvider.build_command prompt (Some s)
              = ClaudeProvider.build_command prompt (Some t).
Proof.
  intros H%case_variant_lower.
  assert (ClaudeProvider._resolve_model (Some s)
          = ClaudeProvider._resolve_model (Some t)) as Hres.
  { unfold ClaudeProvider._resolve_model. cbv zeta. by rewrite H. }
  split; [done|]. intros prompt. by rewrite !build_command_resolve, Hres.
Qed.

Lemma C6_resolution_case_insensitive_witness :
  ClaudeProvider._resolve_model (Some "HAIKU") = Return "claude-haiku-4-5-20251001"
  ∧ ClaudeProvider._resolve_model (Some "Haiku") = ClaudeProvider._resolve_model (Some "HAIKU")
  ∧ ClaudeProvider._resolve_model (Some "haiku") = ClaudeProvider._resolve_model (Some "HAIKU")
  ∧ ClaudeProvider._resolve_model (Some "Gpt-4") = ClaudeProvider._resolve_model (Some "gPT-4").
Proof.
  split; [reflexivity|].
  split; [apply (C6_resolution_case_insensitive "Haiku" "HAIKU"); reflexivity|].
  split; [apply (C6_resolution_case_insensitive "haiku" "HAIKU"); reflexivity|].
  apply (C6_resolution_case_insensitive "Gpt-4" "gPT-4"); reflexivity.
Defined.

(** C7.  Whenever resolution of a model string fails, [build_command] fails
    with the same error, a [ValueError] whose text is "Unknown model",
    the lower-cased name, and the list of available models; that list is
    exactly haiku, sonnet, opus, and no fully-qualified identifier is in
    it. *)
Theorem C7_unknown_model_message (prompt m : string) (e : exn) :
  ClaudeProvider._resolve_model (Some m) = Raise e →
  ClaudeProvider.build_command prompt (Some m) = Raise e
  ∧ e = ValueError ("Unknown model '" +:+ lower m +:+ "'. Available: "
                      +:+ join ", " ClaudeProvider.get_available_models)
  ∧ ClaudeProvider.get_available_models = ["haiku"; "sonnet"; "opus"]
  ∧ join ", " ClaudeProvider.get_available_models = "haiku, sonnet, opus"
  ∧ ∀ model_id, model_id ∈ dict_values ClaudeProvider.MODELS →
      (model_id ∉ ClaudeProvider.get_available_models)
      ∧ occurs_in model_id (join ", " ClaudeProvider.get_available_models) = false.
Proof.
  intros Hfail.
  split; [by rewrite build_command_resolve, Hfail|].
  split.
  - destruct (canonical_name m) as [c|] eqn:Hc.
    + destruct (resolve_alias _ _ Hc) as [id [_ Hok]]. congruence.
    + rewrite (resolve_unknown _ Hc) in Hfail. by injection Hfail as <-.
  - split; [reflexivity|]. split; [reflexivity|].
    intros model_id. unfold dict_values. simpl.
    rewrite !elem_of_cons, elem_of_nil.
    intros [-> | [-> | [-> | []]]]; (split; [|reflexivity]);
      rewrite available_models, !elem_of_cons, elem_of_nil;
      intros [? | [? | [? | []]]]; discriminate.
Qed.

Lemma C7_unknown_model_message_witness :
  ClaudeProvider.build_command "hi" (Some "GPT-4")
  = Raise (ValueError "Unknown model 'gpt-4'. Available: haiku, sonnet, opus").
Proof.
  pose proof (C7_unknown_model_message "hi" "GPT-4" _ eq_refl) as [H _].
  exact H.
Defined.

(** Failure happens exactly when the lower-cased name is no key of the alias
    table. *)
Lemma resolve_fails_iff (m : string) :
  (∃ e, ClaudeProvider._resolve_model (Some m) = Raise e)
  ↔ canonical_name m = None.
Proof.
  split.
  - intros [e He]. destruct (canonical_name m) as [c|] eqn:Hc; [|done].
    destruct (resolve_alias _ _ Hc) as [id [_ Hok]]. congruence.
  - intros Hc. eexists. by apply resolve_unknown.
Qed.

(** The text of the error echoes the name the user gave, lower-cased; a
    fully-qualified identifier given as the model name is therefore echoed,
    outside the enumeration. *)
Example unknown_model_echo :
  ClaudeProvider.build_command "hi" (Some "claude-haiku-4-5-20251001")
  = Raise (ValueError
      "Unknown model 'claude-haiku-4-5-20251001'. Available: haiku, sonnet, opus").
Proof. reflexivity. Qed.

(** C10.  For every prompt, [build_command] with the model omitted does
    not fail and returns the same arguments as with the model "haiku". *)
Theorem C10_omitted_model_is_haiku (prompt : string) :
  (∃ command, ClaudeProvider.build_command prompt None = Return command)
  ∧ ClaudeProvider.build_command prompt None
    = ClaudeProvider.build_command prompt (Some "haiku")
  ∧ ClaudeProvider.build_command prompt None
    = ClaudeProvider.build_command prompt (Some ClaudeProvider.get_default_model).
Proof. split; [eexists; reflexivity|]. split; reflexivity. Qed.

(** ** [validate_model] against [build_command] *)

Lemma validate_model_iff (m : string) :
  validate_model ClaudeProvider.provider m = true
  ↔ m = "haiku" ∨ m = "sonnet" ∨ m = "opus".
Proof.
  unfold validate_model. rewrite bool_decide_eq_true. simpl.
  rewrite available_models, !elem_of_cons, elem_of_nil. tauto.
Qed.

Lemma build_command_succeeds (prompt m c : string) :
  canonical_name m = Some c →
  ∃ command, ClaudeProvider.build_command prompt (Some m) = Return command.
Proof.
  intros Hc. destruct (resolve_alias _ _ Hc) as [id [_ Hok]].
  rewrite build_command_resolve, Hok. by eexists.
Qed.

(** C8.  [validate_model] accepts exactly the three lower-case short names,
    while [build_command] accepts more: every case variant of a short name
    other than the short name itself, and every alias that is not a short
    name, is refused by [validate_model] and accepted by [build_command]. *)
Theorem C8_validate_model_narrower :
  (∀ m, validate_model ClaudeProvider.provider m = true
        ↔ m = "haiku" ∨ m = "sonnet" ∨ m = "opus")
  ∧ (∀ prompt m s,
       s ∈ ClaudeProvider.get_available_models →
       case_variant m s = true → m ≠ s →
       validate_model ClaudeProvider.provider m = false
       ∧ ∃ command, build_command ClaudeProvider.provider prompt (Some m)
                    = Return command)
  ∧ (∀ prompt m,
       m ∈ dict_keys ClaudeProvider.MODEL_ALIASES →
       m ∉ dict_keys ClaudeProvider.MODELS →
       validate_model ClaudeProvider.provider m = false
       ∧ ∃ command, build_command ClaudeProvider.provider prompt (Some m)
                    = Return command).
Proof.
  split; [exact validate_model_iff|]. split.
  - intros prompt m s Hs Hcv Hne.
    apply case_variant_lower in Hcv.
    assert (lower s = s) as Hlow.
    { revert Hs. rewrite available_models, !elem_of_cons, elem_of_nil.
      intros [-> | [-> | [-> | []]]]; reflexivity. }
    split.
    + apply not_true_is_false. rewrite validate_model_iff. intros Hm.
      apply Hne. rewrite <- Hlow, <- Hcv.
      destruct Hm as [-> | [-> | ->]]; reflexivity.
    + apply (build_command_succeeds prompt m s).
      unfold canonical_name. rewrite Hcv, Hlow. by apply alias_self.
  - intros prompt m Hm Hnm. split.
    + apply not_true_is_false. rewrite validate_model_iff. intros Hv.
      apply Hnm. unfold dict_keys. simpl. rewrite !elem_of_cons. tauto.
    + revert Hm. unfold dict_keys. simpl. rewrite !elem_of_cons, elem_of_nil.
      intros H.
      repeat (destruct H as [-> | H]; [eexists; reflexivity|]). done.
Qed.

Lemma C8_validate_model_narrower_witness :
  (validate_model ClaudeProvider.provider "HAIKU" = false
   ∧ ∃ command, build_command ClaudeProvider.provider "hi" (Some "HAIKU")
                = Return command)
  ∧ (validate_model ClaudeProvider.provider "sonnet-4-5" = false
     ∧ ∃ command, build_command ClaudeProvider.provider "hi" (Some "sonnet-4-5")
                  = Return command).
Proof.
  destruct C8_validate_model_narrower as (_ & Hcase & Halias). split.
  - apply (Hcase "hi" "HAIKU" "haiku");
      [rewrite available_models; apply list_elem_of_here
      | reflexivity | discriminate].
  - apply (Halias "hi" "sonnet-4-5"); unfold dict_keys; simpl.
    + rewrite !elem_of_cons. tauto.
    + rewrite !elem_of_cons, elem_of_nil.
      intros [? | [? | [? | []]]]; discriminate.
Defined.

(** ** The configuration store: merging a loaded file with the defaults *)

Section Merge.
Import ConfigManager.

Lemma merge_item_lookup (key : string) (value : json)
    (merged : gmap string json) (k : string) :
  merge_item key value merged !! k =
    if decide (key = k) then Some (merged_value (merged !! key) value)
    else merged !! k.
Proof.
  unfold merge_item, merged_value.
  destruct (merged !! key) as [[]|] eqn:Hm; destruct value;
    rewrite lookup_insert; by case_decide.
Qed.

(** The loop, key by key: the result does not depend on the order in
    which the loaded file's items are visited. *)
Lemma merge_dict_lookup (loaded : gmap string json) (k : string) :
  merge_dict loaded !! k =
    match loaded !! k with
    | Some value => Some (merged_value (DEFAULT_CONFIG !! k) value)
    | None => DEFAULT_CONFIG !! k
    end.
Proof.
  unfold merge_dict. revert k.
  apply (map_fold_weak_ind
           (λ r m, ∀ k, r !! k = match m !! k with
                                 | Some value =>
                                     Some (merged_value (DEFAULT_CONFIG !! k) value)
                                 | None => DEFAULT_CONFIG !! k
                                 end)).
  - intros k. by rewrite lookup_empty.
  - intros i x m r Hi IH k. rewrite merge_item_lookup, lookup_insert.
    case_decide as Hk; [|done]. subst k.
    by rewrite (IH i), Hi.
Qed.

End Merge.

(** C5.  Merging a loaded configuration with the defaults keeps every key
    the user set: a top-level key of the loaded file is in the result with
    the loaded value (merged over the default's when both are mappings); a
    key the file lacks has the default's value; and under a nested mapping
    every key the user set keeps the user's value, whether or not the
    defaults know it, while the nested keys the user left out are filled
    from the defaults. *)
Theorem C5_merge_keeps_user_keys (loaded : gmap string json) :
  ConfigManager._merge_with_defaults (JObj loaded)
    = Return (ConfigManager.merge_dict loaded)
  ∧ (∀ k v, loaded !! k = Some v →
       ConfigManager.merge_dict loaded !! k
         = Some (merged_value (ConfigManager.DEFAULT_CONFIG !! k) v)
       ∧ (v = merged_value (ConfigManager.DEFAULT_CONFIG !! k) v
          ∨ ∃ u d, v = JObj u
                   ∧ ConfigManager.DEFAULT_CONFIG !! k = Some (JObj d)))
  ∧ (∀ k, loaded !! k = None →
       ConfigManager.merge_dict loaded !! k = ConfigManager.DEFAULT_CONFIG !! k)
  ∧ (∀ k u j x, loaded !! k = Some (JObj u) → u !! j = Some x →
       ∃ m, ConfigManager.merge_dict loaded !! k = Some (JObj m)
            ∧ m !! j = Some x)
  ∧ (∀ k u d j, loaded !! k = Some (JObj u) →
       ConfigManager.DEFAULT_CONFIG !! k = Some (JObj d) → u !! j = None →
       ∃ m, ConfigManager.merge_dict loaded !! k = Some (JObj m)
            ∧ m !! j = d !! j).
Proof.
  split; [reflexivity|]. split; [|split; [|split]].
  - intros k v Hk. rewrite merge_dict_lookup, Hk. split; [done|].
    unfold merged_value.
    destruct (ConfigManager.DEFAULT_CONFIG !! k) as [[]|]; destruct v;
      try (by left); right; eauto.
  - intros k Hk. by rewrite merge_dict_lookup, Hk.
  - intros k u j x Hk Hj. rewrite merge_dict_lookup, Hk. unfold merged_value.
    destruct (ConfigManager.DEFAULT_CONFIG !! k) as [[]|]; eexists; (split; [done|]);
      try done.
    by apply lookup_union_Some_l.
  - intros k u d j Hk Hd Hj. rewrite merge_dict_lookup, Hk, Hd. simpl.
    eexists; split; [done|]. by apply lookup_union_r.
Qed.

Lemma C5_merge_keeps_user_keys_witness :
  (∃ m, ConfigManager.merge_dict third_provider_config !! "default_models"
          = Some (JObj m)
        ∧ m !! "openai" = Some (JStr "gpt-4o"))
  ∧ (∃ m, ConfigManager.merge_dict third_provider_config !! "default_models"
            = Some (JObj m)
          ∧ m !! "claude" = Some (JStr "haiku"))
  ∧ ConfigManager.merge_dict third_provider_config !! "theme" = Some (JStr "dark")
  ∧ ConfigManager.merge_dict third_provider_config !! "max_response_words"
      = Some (JNum 100).
Proof.
  destruct (C5_merge_keeps_user_keys third_provider_config)
    as (_ & Htop & Hmiss & Hnest & Hfill).
  split; [|split; [|split]].
  - apply (Hnest "default_models" (<["openai" := JStr "gpt-4o"]> ∅) "openai");
      reflexivity.
  - destruct (Hfill "default_models" (<["openai" := JStr "gpt-4o"]> ∅)
                (<["claude" := JStr "haiku"]> (<["gemini" := JStr "gemini-flash"]> ∅))
                "claude") as [m [Hm Hj]]; [reflexivity..|].
    exists m. split; [exact Hm|]. rewrite Hj. reflexivity.
  - destruct (Htop "theme" (JStr "dark")) as [Ht _]; [reflexivity|].
    rewrite Ht. reflexivity.
  - rewrite (Hmiss "max_response_words"); reflexivity.
Defined.

(** ** The command orchestrator *)

(** The scenario of C1 through [main]: no flags, an empty configuration
    file, the tool installed. *)
Example scenario_what_is_python :
  main.main (example_world (FileJson (JObj ∅))) (plain_args "what is python?")
  = ([ Spawn [ "claude"; "--model"; "claude-haiku-4-5-20251001";
               "Answer concisely in under 100 words: what is python?" ] ],
     0%Z).
Proof. reflexivity. Qed.

Lemma parse_args_flag (args : cli.Namespace) :
  info_or_config_flag args = true → cli.parse_args args = ([], Return args).
Proof.
  unfold info_or_config_flag, cli.parse_args. by intros ->.
Qed.

Lemma config_flag_info (args : cli.Namespace) :
  config_flag args = true → info_or_config_flag args = true.
Proof.
  unfold config_flag, info_or_config_flag, cli.any. simpl.
  destruct (cli.list_providers args), (truthy (of_opt (cli.list_models args)));
    simpl; auto.
Qed.

(** A rejection by [validate_args] is all that [main] does. *)
Lemma main_rejected (w : world) (args : cli.Namespace) (msg : string) :
  info_or_config_flag args = true →
  cli.validate_args args = Raise (ValueError msg) →
  main.main w args = ([Stderr ("Error: " +:+ msg)], 1%Z).
Proof.
  intros Hflag Hval. unfold main.main, main.main_body.
  rewrite (parse_args_flag _ Hflag). unfold mbind, M_bind, lift.
  rewrite Hval. reflexivity.
Qed.

(** C2, as amended.  Whenever --dry-run is combined with a configuration
    flag (--config-path, --config-show or --config-reset), [validate_args]
    raises a [ValueError], and the whole run consists of reporting that
    error and exiting with status 1: the configuration is not loaded or
    written, nothing is listed, shown or reset, nothing is spawned. *)
Theorem C2_dry_run_config_flag_rejected (w : world) (args : cli.Namespace) :
  cli.dry_run args = true →
  config_flag args = true →
  ∃ msg, cli.validate_args args = Raise (ValueError msg)
         ∧ main.main w args = ([Stderr ("Error: " +:+ msg)], 1%Z).
Proof.
  intros Hdry Hcfg.
  assert (∃ msg, cli.validate_args args = Raise (ValueError msg)) as [msg Hval].
  { unfold cli.validate_args. unfold config_flag in Hcfg.
    rewrite Hdry, Hcfg. simpl.
    destruct (_ && _); eauto. }
  exists msg. split; [done|].
  apply main_rejected; [by apply config_flag_info | done].
Qed.

Lemma C2_dry_run_config_flag_rejected_witness :
  ∃ msg, cli.validate_args dry_run_config_reset = Raise (ValueError msg)
         ∧ main.main (example_world FileAbsent) dry_run_config_reset
           = ([Stderr ("Error: " +:+ msg)], 1%Z).
Proof.
  apply (C2_dry_run_config_flag_rejected (example_world FileAbsent)
           dry_run_config_reset); reflexivity.
Defined.

(** C2, as stated, fails: --dry-run with --list-providers passes
    [validate_args]; the run then writes the default configuration file
    (none existed) and lists the providers, with status 0. *)
Lemma C2_counterexample :
  cli.dry_run dry_run_list_providers = true
  ∧ info_or_config_flag dry_run_list_providers = true
  ∧ cli.validate_args dry_run_list_providers = Return tt
  ∧ main.main (example_world FileAbsent) dry_run_list_providers
    = ([ WriteConfig ConfigManager.DEFAULT_CONFIG;
         Stdout "Available providers:";
         Stdout ("  " +:+ main.check_mark
                   +:+ " claude (default: haiku, available: haiku, sonnet, opus)") ],
       0%Z).
Proof. repeat split; reflexivity. Qed.

(** Without a configuration flag, --dry-run changes nothing in what
    [validate_args] accepts. *)
Lemma validate_args_no_config_flag (args : cli.Namespace) :
  config_flag args = false →
  cli.validate_args args
  = if truthy (of_opt (cli.list_models args))
       && negb (truthy (of_opt (strip <$> cli.list_models args)))
    then Raise (ValueError "--list-models requires a provider name")
    else Return tt.
Proof.
  intros H. unfold cli.validate_args. unfold config_flag in H. rewrite H.
  by rewrite andb_false_r.
Qed.

(** *** Which model is used *)

Lemma get_provider_claude (provider_name : json) (provider : Provider) :
  main.get_provider provider_name = Return provider →
  provider_name = JStr "claude" ∧ provider = ClaudeProvider.provider.
Proof.
  destruct provider_name as [| | |s| |]; simpl; try discriminate.
  case_decide as Hs; [|discriminate]. subst s. by intros [= <-].
Qed.

(** The dotted key default_models.claude reads the nested mapping. *)
Lemma get_default_model_claude (config : ConfigManager.t) :
  ConfigManager.get_default_model config "claude"
  = default JNull (stored_model config "claude").
Proof.
  unfold ConfigManager.get_default_model, ConfigManager.get, stored_model.
  change (split "." ("default_models." +:+ "claude"))
    with ["default_models"; "claude"].
  simpl. destruct (ConfigManager._config config !! "default_models") as [[]|];
    done.
Qed.

Lemma determine_model_precedence (args : cli.Namespace)
    (config : ConfigManager.t) (provider : Provider) :
  main.determine_model args config "claude" provider
  = or_precedence (cli.model args) (stored_model config "claude")
      (get_default_model provider).
Proof.
  unfold main.determine_model, or_precedence, py_or.
  rewrite get_default_model_claude.
  assert (∀ o : option json,
            (if truthy (default JNull o) then default JNull o
             else JStr (get_default_model provider))
            = match o with
              | Some v => if truthy v then v else JStr (get_default_model provider)
              | None => JStr (get_default_model provider)
              end) as Hfall by (by intros [v|]).
  rewrite Hfall.
  destruct (cli.model args) as [m|]; simpl; [|done].
  destruct (decide (m = EmptyString)) as [->|Hm]; [done|].
  by rewrite bool_decide_eq_false_2.
Qed.

(** Where the flag is not the empty string and no stored value is one that
    Python takes for false, the precedence is the stated one. *)
Lemma or_precedence_stated (flag : option string) (stored : option json)
    (builtin : string) :
  flag ≠ Some EmptyString →
  (∀ v, stored = Some v → truthy v = true) →
  or_precedence flag stored builtin = stated_precedence flag stored builtin.
Proof.
  intros Hflag Hstored. unfold or_precedence, stated_precedence.
  assert (match stored with
          | Some v => if truthy v then v else JStr builtin
          | None => JStr builtin
          end = match stored with Some v => v | None => JStr builtin end) as ->.
  { destruct stored as [v|]; [|done]. by rewrite (Hstored v). }
  destruct flag as [m|]; [|done]. case_decide; [|done]. by subst m.
Qed.

(** C4, as amended.  On every run that reaches execution (the provider was
    found, which makes it claude), the model is: the --model flag when it
    was given and is not the empty string; otherwise the value stored under
    default_models.claude when there is one and Python takes it for true;
    otherwise the provider's built-in default, haiku.  When the tool is
    installed and a command is built from that model, it is that command
    that the run spawns. *)
Theorem C4_model_precedence (w : world) (args : cli.Namespace)
    (config : ConfigManager.t) (provider : Provider) :
  main.get_provider
    (py_or (of_opt (cli.provider args))
           (ConfigManager.get_default_provider config)) = Return provider →
  get_default_model provider = "haiku"
  ∧ main.determine_model args config "claude" provider
    = or_precedence (cli.model args) (stored_model config "claude") "haiku"
  ∧ (check_available provider (which w) = true →
     cli.dry_run args = false →
     ∀ command,
       main.call_build_command provider (cli.prompt args)
         (or_precedence (cli.model args) (stored_model config "claude") "haiku")
       = Return command →
       main.invoke w args config
       = ((if cli.verbose args
           then [Stderr ("Command: " +:+ join " " command)] else [])
            ++ [Spawn command],
          Return (returncode w command))).
Proof.
  intros Hprov. destruct (get_provider_claude _ _ Hprov) as [Hname ->].
  split; [reflexivity|]. split; [apply determine_model_precedence|].
  intros Havail Hdry command Hbuild.
  unfold main.invoke. rewrite Hprov, Hname. unfold mbind, M_bind, lift.
  rewrite Havail. simpl negb. cbv iota.
  change (py_str (JStr "claude")) with "claude".
  rewrite determine_model_precedence.
  change (get_default_model ClaudeProvider.provider) with "haiku".
  rewrite Hbuild, Hdry, orb_false_r.
  by destruct (cli.verbose args).
Qed.

Lemma C4_model_precedence_witness :
  main.determine_model empty_model_args sonnet_config "claude"
    ClaudeProvider.provider
  = or_precedence (Some EmptyString) (Some (JStr "sonnet")) "haiku"
  ∧ main.invoke (example_world FileAbsent) empty_model_args sonnet_config
    = ([ Spawn [ "claude"; "--model"; "claude-sonnet-4-5-20250929";
                 "Answer concisely in under 100 words: hi" ] ],
       Return 0%Z).
Proof.
  destruct (C4_model_precedence (example_world FileAbsent) empty_model_args
              sonnet_config ClaudeProvider.provider) as (_ & Hmodel & Hrun);
    [reflexivity|].
  split; [exact Hmodel|].
  apply Hrun; reflexivity.
Defined.

(** C4, as stated, fails: with --model given as the empty string and sonnet
    stored for claude, the flag was supplied, yet the model used is the
    stored one, and that is the command the run spawns. *)
Lemma C4_counterexample :
  cli.model empty_model_args = Some EmptyString
  ∧ stated_precedence (cli.model empty_model_args)
      (stored_model sonnet_config "claude") "haiku" = JStr EmptyString
  ∧ main.determine_model empty_model_args sonnet_config "claude"
      ClaudeProvider.provider = JStr "sonnet"
  ∧ main.determine_model empty_model_args sonnet_config "claude"
      ClaudeProvider.provider
    ≠ stated_precedence (cli.model empty_model_args)
        (stored_model sonnet_config "claude") "haiku"
  ∧ main.main (example_world (FileJson (JObj sonnet_file))) empty_model_args
    = ([ Spawn [ "claude"; "--model"; "claude-sonnet-4-5-20250929";
                 "Answer concisely in under 100 words: hi" ] ],
       0%Z).
Proof.
  split; [reflexivity|]. split; [reflexivity|]. split; [reflexivity|].
  split; [|reflexivity].
  change (JStr "sonnet" ≠ JStr EmptyString). discriminate.
Qed.

(** *** What the configured word limit does not touch *)

Lemma same_but_max_words_lookup (c1 c2 : gmap string json) (k : string) :
  same_but_max_words c1 c2 → k ≠ "max_response_words" → c1 !! k = c2 !! k.
Proof.
  intros H Hk.
  rewrite <- (lookup_delete_ne c1 "max_response_words" k) by done.
  rewrite H. by rewrite lookup_delete_ne.
Qed.

Lemma same_but_max_words_merge (l1 l2 : gmap string json) :
  same_but_max_words l1 l2 →
  same_but_max_words (ConfigManager.merge_dict l1) (ConfigManager.merge_dict l2).
Proof.
  intros H. apply map_eq. intros k.
  destruct (decide (k = "max_response_words")) as [->|Hk].
  - by rewrite !lookup_delete_eq.
  - rewrite !lookup_delete_ne by done.
    by rewrite !merge_dict_lookup, (same_but_max_words_lookup l1 l2 k).
Qed.

Section WordLimit.
Variables c1 c2 : ConfigManager.t.
Hypothesis Hsame :
  same_but_max_words (ConfigManager._config c1) (ConfigManager._config c2).

Lemma get_default_provider_same :
  ConfigManager.get_default_provider c1 = ConfigManager.get_default_provider c2.
Proof.
  unfold ConfigManager.get_default_provider, ConfigManager.get.
  change (split "." "default_provider") with ["default_provider"]. simpl.
  by rewrite (same_but_max_words_lookup _ _ "default_provider" Hsame).
Qed.

Lemma get_default_model_same (provider : string) :
  ConfigManager.get_default_model c1 provider
  = ConfigManager.get_default_model c2 provider.
Proof.
  unfold ConfigManager.get_default_model, ConfigManager.get.
  change (split "." ("default_models." +:+ provider))
    with ("default_models" :: split "." provider).
  simpl.
  by rewrite (same_but_max_words_lookup _ _ "default_models" Hsame).
Qed.

Lemma invoke_same (w : world) (args : cli.Namespace) :
  main.invoke w args c1 = main.invoke w args c2.
Proof.
  unfold main.invoke, main.determine_model.
  rewrite get_default_provider_same.
  destruct (main.get_provider _) as [provider|e]; [|done].
  unfold mbind, M_bind, lift.
  by rewrite get_default_model_same.
Qed.

End WordLimit.

Lemma bind_return {A B : Type} (a : A) (f : A → M B) :
  (([], Return a) : M A) ≫= f = f a.
Proof. unfold mbind, M_bind. by destruct (f a). Qed.

Lemma bind_mret {A B : Type} (a : A) (f : A → M B) : mret a ≫= f = f a.
Proof. apply bind_return. Qed.

Lemma same_commands_bind {A B : Type} (m : M A) (f g : A → M B) :
  (∀ a, same_commands (f a) (g a)) → same_commands (m ≫= f) (m ≫= g).
Proof.
  intros H. destruct m as [t [a|e]]; unfold mbind, M_bind; [|done].
  destruct (H a) as [Hev Hout].
  destruct (f a) as [t1 o1], (g a) as [t2 o2]. simpl in *.
  split; [|done]. unfold command_events in *. cbn [fst].
  by rewrite !List.filter_app, Hev.
Qed.

(** The body of [main] under two configuration files that differ only in
    max_response_words. *)
Lemma main_body_same_commands (w : world) (args : cli.Namespace)
    (l1 l2 : gmap string json) :
  same_but_max_words l1 l2 →
  same_commands (main.main_body (with_config_file w (JObj l1)) args)
                (main.main_body (with_config_file w (JObj l2)) args).
Proof.
  intros Hsame. unfold main.main_body.
  apply same_commands_bind. intros args'.
  apply same_commands_bind. intros _.
  unfold ConfigManager.init, ConfigManager._load. simpl cfg_file. cbv iota.
  unfold ConfigManager._merge_with_defaults, lift.
  rewrite !bind_return, !bind_mret.
  destruct (cli.list_providers args'); [done|].
  destruct (truthy (of_opt (cli.list_models args'))); [done|].
  destruct (cli.config_path args'); [done|].
  destruct (cli.config_show args'); [done|].
  destruct (cli.config_reset args'); [done|].
  set (k1 := {| ConfigManager.config_path := _;
                ConfigManager._config := ConfigManager.merge_dict l1 |}).
  set (k2 := {| ConfigManager.config_path := _;
                ConfigManager._config := ConfigManager.merge_dict l2 |}).
  change (same_commands (main.invoke w args' k1) (main.invoke w args' k2)).
  rewrite (invoke_same k1 k2); [done|].
  by apply same_but_max_words_merge.
Qed.

(** Every command [build_command] returns ends in the prompt behind the
    fixed instruction. *)
Lemma build_command_shape (prompt : string) (model : option string)
    (command : list string) :
  ClaudeProvider.build_command prompt model = Return command →
  ∃ model_id,
    command = [ "claude"; "--model"; model_id;
                "Answer concisely in under 100 words: " +:+ prompt ].
Proof.
  rewrite build_command_resolve.
  destruct (ClaudeProvider._resolve_model model) as [model_id|]; [|done].
  intros [= <-]. by exists model_id.
Qed.

(** C9.  The configured max_response_words never reaches the command.
    Every command [build_command] returns carries the literal instruction
    "Answer concisely in under 100 words: " before the prompt; the part of
    [main] that resolves the provider and the model, builds the command and
    runs it behaves identically under two configurations that differ only in
    max_response_words; and so, for two configuration files that differ only
    there, the runs of [main] spawn the same command, write the same
    diagnostics and exit with the same status. *)
Theorem C9_max_response_words_unused :
  (∀ prompt model command,
     build_command ClaudeProvider.provider prompt model = Return command →
     ∃ model_id,
       command = [ "claude"; "--model"; model_id;
                   "Answer concisely in under 100 words: " +:+ prompt ])
  ∧ (∀ w args c1 c2,
       same_but_max_words (ConfigManager._config c1) (ConfigManager._config c2) →
       main.invoke w args c1 = main.invoke w args c2)
  ∧ (∀ w args l1 l2,
       same_but_max_words l1 l2 →
       command_events (main.main (with_config_file w (JObj l1)) args).1
       = command_events (main.main (with_config_file w (JObj l2)) args).1
       ∧ (main.main (with_config_file w (JObj l1)) args).2
         = (main.main (with_config_file w (JObj l2)) args).2).
Proof.
  split; [exact build_command_shape|].
  split; [intros w args c1 c2 H; by apply invoke_same|].
  intros w args l1 l2 Hsame.
  pose proof (main_body_same_commands w args l1 l2 Hsame) as [Hev Hout].
  unfold main.main.
  destruct (main.main_body (with_config_file w (JObj l1)) args) as [t1 o1].
  destruct (main.main_body (with_config_file w (JObj l2)) args) as [t2 o2].
  simpl in Hev, Hout. subst o2.
  destruct o1 as [code|[]]; simpl; try done.
  all: unfold command_events in *; by rewrite !List.filter_app, Hev.
Qed.

Lemma C9_max_response_words_unused_witness :
  same_but_max_words words_20_file words_500_file
  ∧ command_events
      (main.main (with_config_file (example_world FileAbsent) (JObj words_20_file))
         (plain_args "hi")).1
    = command_events
        (main.main (with_config_file (example_world FileAbsent) (JObj words_500_file))
           (plain_args "hi")).1
  ∧ (main.main (with_config_file (example_world FileAbsent) (JObj words_20_file))
       (plain_args "hi")).1
    = [ Spawn [ "claude"; "--model"; "claude-sonnet-4-5-20250929";
                "Answer concisely in under 100 words: hi" ] ].
Proof.
  assert (same_but_max_words words_20_file words_500_file) as Hsame
    by reflexivity.
  split; [exact Hsame|]. split; [|reflexivity].
  destruct C9_max_response_words_unused as (_ & _ & Hmain).
  apply (Hmain (example_world FileAbsent) (plain_args "hi")
           words_20_file words_500_file Hsame).
Defined.

(** *** Runs of [main] on sample invocations *)

(** askai --dry-run -m OPUS "hi": the command is shown, nothing is spawned. *)
Example scenario_dry_run :
  main.main (example_world (FileJson (JObj sonnet_file)))
    {| cli.prompt := Some "hi"; cli.provider := None; cli.model := Some "OPUS";
       cli.list_providers := false; cli.list_models := None;
       cli.config_path := false; cli.config_show := false;
       cli.config_reset := false; cli.verbose := false; cli.dry_run := true |}
  = ([ Stderr ("Command: claude --model claude-opus-4-1-20250805 "
                 +:+ "Answer concisely in under 100 words: hi") ],
     0%Z).
Proof. reflexivity. Qed.

(** askai -v -m gpt-4 "hi": the unknown model is reported, status 1. *)
Example scenario_unknown_model :
  main.main (example_world (FileJson (JObj sonnet_file)))
    {| cli.prompt := Some "hi"; cli.provider := None; cli.model := Some "gpt-4";
       cli.list_providers := false; cli.list_models := None;
       cli.config_path := false; cli.config_show := false;
       cli.config_reset := false; cli.verbose := true; cli.dry_run := false |}
  = ([ Stderr "Error: Unknown model 'gpt-4'. Available: haiku, sonnet, opus" ],
     1%Z).
Proof. reflexivity. Qed.

(** askai --list-models claude lists the three models whether or not the
    tool is installed. *)
Example scenario_list_models (w : world) :
  main.main (with_config_file w (JObj ∅))
    {| cli.prompt := None; cli.provider := None; cli.model := None;
       cli.list_providers := false; cli.list_models := Some "claude";
       cli.config_path := false; cli.config_show := false;
       cli.config_reset := false; cli.verbose := false; cli.dry_run := false |}
  = ([ Stdout "Available models for claude:";
       Stdout "  - haiku (default)";
       Stdout "  - sonnet";
       Stdout "  - opus" ],
     0%Z).
Proof. reflexivity. Qed.

(** askai with no prompt and no flag is a usage error, status 2. *)
Example scenario_no_prompt (w : world) :
  main.main w
    {| cli.prompt := None; cli.provider := None; cli.model := None;
       cli.list_providers := false; cli.list_models := None;
       cli.config_path := false; cli.config_show := false;
       cli.config_reset := false; cli.verbose := false; cli.dry_run := false |}
  = ([ ParserError "the following arguments are required: prompt" ], 2%Z).
Proof. reflexivity. Qed.

(** * Further properties of the code *)

(** ** The configuration store: [get] and [set] *)

Lemma split_nonempty (sep : ascii) (s : string) : split sep s ≠ [].
Proof.
  destruct s as [|c s]; simpl; [done|].
  case_decide; [done|]. by destruct (split sep s).
Qed.

Lemma set_keys_cons (k k' : string) (rest : list string) (value : json)
    (config : gmap string json) :
  ConfigStore.set_keys (k :: k' :: rest) value config
  = <[k := JObj (ConfigStore.set_keys (k' :: rest) value
                   match config !! k with
                   | Some (JObj m) => m
                   | _ => ∅
                   end)]> config.
Proof. reflexivity. Qed.

(** On what [get] reads, [set] is the update along the key path. *)
Lemma contents_assign (keys : list string) (value : json) (s : ConfigStore.state) :
  ConfigStore.contents (ConfigStore.assign keys value s)
  = ConfigStore.set_keys keys value (ConfigStore.contents s).
Proof.
  destruct keys as [|k [|k' rest]]; [done| |].
  - unfold ConfigStore.contents, ConfigStore.assign.
    cbn [ConfigStore.shares_models ConfigStore.class_models ConfigStore.own
         ConfigStore.set_keys].
    destruct (ConfigStore.shares_models s); cbn [andb]; [|done].
    case_bool_decide as Hk; cbn [negb].
    + subst k. by rewrite insert_insert_eq.
    + by rewrite insert_insert_ne.
  - rewrite set_keys_cons.
    unfold ConfigStore.contents, ConfigStore.assign.
    destruct (ConfigStore.shares_models s) eqn:Hs; cbn [andb].
    + case_bool_decide as Hk;
        cbn [ConfigStore.shares_models ConfigStore.class_models ConfigStore.own].
      * subst k. by rewrite lookup_insert_eq, insert_insert_eq.
      * rewrite set_keys_cons. rewrite lookup_insert_ne by done.
        by rewrite insert_insert_ne.
    + cbn [ConfigStore.shares_models ConfigStore.class_models ConfigStore.own].
      by rewrite set_keys_cons.
Qed.

Lemma walk_set_keys (keys : list string) (value default : json)
    (config : gmap string json) :
  keys ≠ [] →
  ConfigManager.walk keys (JObj (ConfigStore.set_keys keys value config)) default
  = value.
Proof.
  revert config. induction keys as [|k rest IH]; intros config Hne; [done|].
  destruct rest as [|k' rest].
  - simpl. by rewrite lookup_insert_eq.
  - rewrite set_keys_cons. cbn [ConfigManager.walk].
    rewrite lookup_insert_eq. by apply IH.
Qed.

Lemma walk_set_keys_diverge (keys keys' : list string) (value default : json)
    (config : gmap string json) :
  diverge keys keys' = true →
  ConfigManager.walk keys' (JObj (ConfigStore.set_keys keys value config)) default
  = ConfigManager.walk keys' (JObj config) default.
Proof.
  revert keys' config.
  induction keys as [|k rest IH]; intros [|k' rest'] config Hd; try done.
  simpl in Hd. destruct rest as [|k2 rest].
  - case_decide as Hk; [by destruct rest'|].
    simpl. by rewrite lookup_insert_ne.
  - rewrite set_keys_cons. cbn [ConfigManager.walk].
    case_decide as Hk; [|by rewrite lookup_insert_ne].
    subst k'. rewrite lookup_insert_eq.
    destruct rest' as [|k3 rest']; [done|].
    rewrite (IH _ _ Hd).
    destruct (config !! k) as [[| | | | |m]|]; try done.
    all: cbn [ConfigManager.walk]; by rewrite lookup_empty.
Qed.

(** X1.  [get] after [set]: whatever the manager held, whatever the key
    (dotted or not) and the value, [set] does not raise and a [get] of the
    same key afterwards returns the value set, never the fallback; with
    [save] the new contents are what is written (or a warning is printed
    when the file cannot be written), without [save] nothing is. *)
Theorem X1_set_then_get (w : world) (s : ConfigStore.state) (key : string)
    (value default : json) (save : bool) :
  ∃ s', ConfigStore.set w s key value save
        = ((if save
            then match save_error w with
                 | None => [WriteConfig (ConfigStore.contents s')]
                 | Some err =>
                     [Stdout ("Warning: Failed to save config to "
                                +:+ cfg_path w +:+ ": " +:+ err)]
                 end
            else []),
           Return s')
        ∧ ConfigStore.get s' key default = value.
Proof.
  exists (ConfigStore.assign (split "." key) value s). split.
  - unfold ConfigStore.set, ConfigManager._save.
    destruct save; [|done]. by destruct (save_error w).
  - unfold ConfigStore.get. rewrite contents_assign.
    apply walk_set_keys, split_nonempty.
Qed.

(** X2.  [set] leaves alone what [get] returns for any key whose path parts
    ways with the path of the key set (the two paths differ at some segment
    and agree before it). *)
Theorem X2_set_other_key (w : world) (s s' : ConfigStore.state)
    (key key' : string) (value default : json) (save : bool) (t : list event) :
  diverge (split "." key) (split "." key') = true →
  ConfigStore.set w s key value save = (t, Return s') →
  ConfigStore.get s' key' default = ConfigStore.get s key' default.
Proof.
  intros Hd Hset.
  assert (s' = ConfigStore.assign (split "." key) value s) as ->.
  { unfold ConfigStore.set in Hset.
    destruct save; unfold ConfigManager._save in Hset;
      [destruct (save_error w)|]; by injection Hset as _ <-. }
  unfold ConfigStore.get. rewrite contents_assign.
  by apply walk_set_keys_diverge.
Qed.

Lemma X2_set_other_key_witness :
  ConfigStore.get
    (ConfigStore.assign (split "." "default_models.claude") (JStr "opus")
       ConfigStore.fresh)
    "default_models.gemini" JNull
  = JStr "gemini-flash".
Proof.
  rewrite (X2_set_other_key (example_world FileAbsent) ConfigStore.fresh
             (ConfigStore.assign (split "." "default_models.claude") (JStr "opus")
                ConfigStore.fresh)
             "default_models.claude" "default_models.gemini" (JStr "opus") JNull
             false []); reflexivity.
Defined.

(** X3.  The defaults are shared, not copied: on a manager whose
    default_models entry is still the class-level dict (one made from the
    defaults), [set_default_model] writes into that dict, so a later
    [reset_to_defaults] does not bring the provider's model back: the
    manager still answers the model that was set, and that is what the reset
    writes to the file; the default provider, a top-level key, is reset. *)
Theorem X3_reset_keeps_set_model (w : world) (s : ConfigStore.state)
    (provider model other : string) :
  ConfigStore.shares_models s = true →
  ∃ t1 s1 t2 s2 t3 s3,
    ConfigStore.set_default_model w s provider model = (t1, Return s1)
    ∧ ConfigStore.set_default_provider w s1 other = (t2, Return s2)
    ∧ ConfigStore.reset_to_defaults w s2 = (t3, Return s3)
    ∧ ConfigStore.get_default_model s3 provider = JStr model
    ∧ ConfigStore.get_default_provider s3 = JStr "claude"
    ∧ (save_error w = None → t3 = [WriteConfig (ConfigStore.contents s3)]).
Proof.
  intros Hs.
  set (s1 := ConfigStore.assign (split "." ("default_models." +:+ provider))
               (JStr model) s).
  set (s2 := ConfigStore.assign (split "." "default_provider") (JStr other) s1).
  set (s3 := ConfigStore.copy_defaults s2).
  assert (∀ (x : ConfigStore.state),
            ∃ t, ConfigManager._save w (ConfigStore.contents x) = (t, Return tt)
                 ∧ (save_error w = None
                    → t = [WriteConfig (ConfigStore.contents x)])) as Hsave.
  { intros x. unfold ConfigManager._save.
    destruct (save_error w); eexists; (split; [reflexivity|]); done. }
  destruct (Hsave s1) as (t1 & Ht1 & _).
  destruct (Hsave s2) as (t2 & Ht2 & _).
  destruct (Hsave s3) as (t3 & Ht3 & Hw3).
  exists (t1 ++ []), s1, (t2 ++ []), s2, (t3 ++ []), s3.
  split; [|split; [|split; [|split; [|split]]]].
  - unfold ConfigStore.set_default_model, ConfigStore.set. fold s1.
    by rewrite Ht1.
  - unfold ConfigStore.set_default_provider, ConfigStore.set. fold s2.
    by rewrite Ht2.
  - unfold ConfigStore.reset_to_defaults. fold s3. by rewrite Ht3.
  - unfold ConfigStore.get_default_model, ConfigStore.get.
    change (split "." ("default_models." +:+ provider))
      with ("default_models" :: split "." provider) in *.
    assert (ConfigStore.class_models s3
            = ConfigStore.set_keys (split "." provider) (JStr model)
                (ConfigStore.class_models s)) as Hclass.
    { unfold s3, s2, s1, ConfigStore.assign.
      destruct (split "." provider) as [|k rest] eqn:Hp;
        [by destruct (split_nonempty "." provider)|].
      rewrite Hs. reflexivity. }
    unfold ConfigStore.contents. cbn [s3 ConfigStore.copy_defaults
      ConfigStore.shares_models ConfigStore.own ConfigManager.walk].
    rewrite lookup_insert_eq. fold s3. rewrite Hclass.
    apply walk_set_keys, split_nonempty.
  - reflexivity.
  - intros Hw. by rewrite app_nil_r, (Hw3 Hw).
Qed.

Lemma X3_reset_keeps_set_model_witness :
  ∃ t1 s1 t2 s2 t3 s3,
    ConfigStore.set_default_model (example_world FileAbsent) ConfigStore.fresh
      "claude" "opus" = (t1, Return s1)
    ∧ ConfigStore.set_default_provider (example_world FileAbsent) s1 "gemini"
      = (t2, Return s2)
    ∧ ConfigStore.reset_to_defaults (example_world FileAbsent) s2 = (t3, Return s3)
    ∧ ConfigStore.get_default_model s3 "claude" = JStr "opus"
    ∧ ConfigStore.get_default_provider s3 = JStr "claude"
    ∧ (save_error (example_world FileAbsent) = None
       → t3 = [WriteConfig (ConfigStore.contents s3)]).
Proof.
  apply (X3_reset_keeps_set_model (example_world FileAbsent) ConfigStore.fresh
           "claude" "opus" "gemini").
  reflexivity.
Defined.

(** A manager made from the defaults holds the compiled-in mapping. *)
Example fresh_contents :
  ConfigStore.contents ConfigStore.fresh = ConfigManager.DEFAULT_CONFIG.
Proof. apply map_eq. intros k. reflexivity. Qed.

(** ** The configuration store: loading *)

Lemma merged_value_again (default : option json) (value : json) :
  merged_value default (merged_value default value) = merged_value default value.
Proof.
  destruct default as [[| | | | |d]|], value as [| | | | |u]; simpl; try done.
  f_equal. apply map_eq. intros k. rewrite !lookup_union.
  by destruct (u !! k), (d !! k).
Qed.

Lemma merged_value_self (value : json) :
  merged_value (Some value) value = value.
Proof.
  destruct value as [| | | | |d]; simpl; try done.
  f_equal. apply map_eq. intros k. rewrite lookup_union.
  by destruct (d !! k).
Qed.

Lemma merge_dict_again (loaded : gmap string json) :
  ConfigManager.merge_dict (ConfigManager.merge_dict loaded)
  = ConfigManager.merge_dict loaded.
Proof.
  apply map_eq. intros k. rewrite !merge_dict_lookup.
  destruct (loaded !! k) as [v|].
  - by rewrite merged_value_again.
  - destruct (ConfigManager.DEFAULT_CONFIG !! k) as [v|]; [|done].
    by rewrite merged_value_self.
Qed.

Lemma merge_dict_empty : ConfigManager.merge_dict ∅ = ConfigManager.DEFAULT_CONFIG.
Proof. apply map_fold_empty. Qed.

(** X4.  Loading is stable under saving: whatever the state of the
    configuration file, if [_load] gives a mapping, then loading a file that
    holds that mapping gives the same mapping, silently (no warning, no
    write). *)
Theorem X4_load_saved_config (w : world) (t : list event)
    (cfg : gmap string json) :
  ConfigManager._load w = (t, Return cfg) →
  ConfigManager._load (with_config_file w (JObj cfg)) = ([], Return cfg).
Proof.
  intros Hload.
  assert (ConfigManager.merge_dict cfg = cfg) as Hfix.
  { unfold ConfigManager._load in Hload.
    destruct (cfg_file w) as [|err|v|text].
    - unfold ConfigManager._save in Hload.
      destruct (save_error w); injection Hload as _ <-;
        by rewrite <- merge_dict_empty, merge_dict_again.
    - injection Hload as _ <-. by rewrite <- merge_dict_empty, merge_dict_again.
    - destruct v; try discriminate. injection Hload as _ <-.
      apply merge_dict_again.
    - discriminate. }
  unfold ConfigManager._load, with_config_file. simpl. by rewrite Hfix.
Qed.

Lemma X4_load_saved_config_witness :
  ConfigManager._load
    (with_config_file (example_world (FileJson (JObj third_provider_config)))
       (JObj (ConfigManager.merge_dict third_provider_config)))
  = ([], Return (ConfigManager.merge_dict third_provider_config)).
Proof.
  apply (X4_load_saved_config
           (example_world (FileJson (JObj third_provider_config))) []).
  reflexivity.
Defined.

(** X5.  The keys of a merged configuration are exactly the keys of the
    loaded file together with the three keys of the defaults: every required
    key exists after loading, and no other key appears. *)
Theorem X5_merge_keys (loaded : gmap string json) :
  dom (ConfigManager.merge_dict loaded)
  = dom loaded
    ∪ {[ "default_provider"; "default_models"; "max_response_words" ]}.
Proof.
  apply set_eq. intros k.
  rewrite elem_of_union, !elem_of_dom, merge_dict_lookup.
  assert (is_Some (ConfigManager.DEFAULT_CONFIG !! k)
          ↔ k ∈ ({[ "default_provider"; "default_models"; "max_response_words" ]}
                  : gset string)) as <-.
  { rewrite <- elem_of_dom. set_solver. }
  destruct (loaded !! k) as [v|]; split; eauto.
  intros [[? [=]]|H]; done.
Qed.

(** X6.  A configuration file that holds valid JSON which is not an object
    (a list, a string, a number, true, false or null) stops every run whose
    arguments were accepted: the run reports that the value has no attribute
    items and exits with status 1; nothing is listed, shown, reset or
    spawned, --config-reset included. *)
Theorem X6_non_object_config (w : world) (args : cli.Namespace) (v : json) :
  accepted args →
  cfg_file w = FileJson v →
  (∀ m, v ≠ JObj m) →
  main.main w args
  = ([ Stderr ("Error: '" +:+ type_name v
                 +:+ "' object has no attribute 'items'") ],
     1%Z).
Proof.
  intros [Hparse Hval] Hfile Hv.
  unfold main.main, main.main_body. rewrite Hparse, bind_return, Hval.
  unfold lift. rewrite bind_return.
  unfold ConfigManager.init, ConfigManager._load. rewrite Hfile.
  destruct v as [| | | | |m]; try reflexivity.
  by destruct (Hv m).
Qed.

Lemma X6_non_object_config_witness :
  main.main (example_world (FileJson (JList []))) (list_models_args "claude")
  = ([ Stderr "Error: 'list' object has no attribute 'items'" ], 1%Z).
Proof.
  apply (X6_non_object_config (example_world (FileJson (JList [])))
           (list_models_args "claude") (JList [])).
  - split; reflexivity.
  - reflexivity.
  - discriminate.
Defined.

(** ** The command orchestrator: what a run spawns *)

Lemma spawned_app (t1 t2 : list event) :
  spawned (t1 ++ t2) = spawned t1 ++ spawned t2.
Proof.
  induction t1 as [|ev t1 IH]; [done|].
  destruct ev; simpl; by rewrite ?IH.
Qed.

Lemma dict_get_values (k v : string) (d : odict) :
  dict_get k d = Some v → v ∈ dict_values d.
Proof.
  unfold dict_values. induction d as [|[k' v'] d IH]; simpl; [done|].
  case_decide.
  - intros [= ->]. apply list_elem_of_here.
  - intros H'. apply list_elem_of_further. by apply IH.
Qed.

Lemma resolve_model_id (model : option string) (model_id : string) :
  ClaudeProvider._resolve_model model = Return model_id →
  model_id ∈ dict_values ClaudeProvider.MODELS.
Proof.
  unfold ClaudeProvider._resolve_model. cbv zeta.
  destruct (dict_get _ ClaudeProvider.MODELS) as [id|] eqn:Hid; [|done].
  intros [= <-]. by apply dict_get_values in Hid.
Qed.

Lemma run_shape_bind {A : Type} (w : world) (args : cli.Namespace)
    (m : M A) (f : A → M Z) :
  spawned m.1 = [] →
  (∀ a, m.2 = Return a → run_shape w args (f a)) →
  run_shape w args (m ≫= f).
Proof.
  intros Hm Hf. destruct m as [t [a|e]]; unfold mbind, M_bind; [|by left].
  simpl in Hm. destruct (Hf a eq_refl) as [Hq|(pre & cmd & id & p & Hr & Hpre & H)].
  - left. destruct (f a) as [t' r]. simpl in *. by rewrite spawned_app, Hm, Hq.
  - right. exists (t ++ pre), cmd, id, p. rewrite Hr. split.
    + by rewrite app_assoc.
    + split; [by rewrite spawned_app, Hm, Hpre|done].
Qed.

Lemma load_quiet (w : world) : spawned (ConfigManager._load w).1 = [].
Proof.
  unfold ConfigManager._load, ConfigManager._save.
  destruct (cfg_file w) as [| |v|]; [by destruct (save_error w)|done| |done].
  by destruct v.
Qed.

Lemma init_quiet (w : world) : spawned (ConfigManager.init w).1 = [].
Proof.
  unfold ConfigManager.init. pose proof (load_quiet w) as H.
  destruct (ConfigManager._load w) as [t [cfg|e]]; unfold mbind, M_bind; simpl in *;
    by rewrite ?app_nil_r.
Qed.

Lemma list_models_quiet (provider_name : string) :
  spawned (main.list_models provider_name).1 = [].
Proof.
  unfold main.list_models, main.get_provider. simpl.
  by case_decide.
Qed.

Lemma invoke_shape (w : world) (args : cli.Namespace) (config : ConfigManager.t)
    (p : string) :
  cli.prompt args = Some p →
  info_or_config_flag args = false →
  run_shape w args (main.invoke w args config).
Proof.
  intros Hprompt Hflag. unfold main.invoke.
  destruct (main.get_provider _) as [provider|e] eqn:Hprov; [|by left].
  destruct (get_provider_claude _ _ Hprov) as [-> ->].
  unfold lift. rewrite bind_return.
  change (check_available ClaudeProvider.provider (which w))
    with (which w "claude").
  destruct (which w "claude") eqn:Hwhich; [|by left].
  cbn [negb].
  destruct (main.call_build_command _ _ _) as [command|e] eqn:Hbuild;
    [|destruct e; by left].
  assert (∃ model_id, command = [ "claude"; "--model"; model_id;
                                  "Answer concisely in under 100 words: " +:+ p ]
                      ∧ model_id ∈ dict_values ClaudeProvider.MODELS)
    as (model_id & Hcmd & Hid).
  { unfold main.call_build_command in Hbuild. rewrite Hprompt in Hbuild.
    assert (∀ mo, ClaudeProvider.build_command p mo = Return command →
                  ∃ model_id, command = [ "claude"; "--model"; model_id;
                                          "Answer concisely in under 100 words: "
                                            +:+ p ]
                              ∧ model_id ∈ dict_values ClaudeProvider.MODELS) as Hb.
    { intros mo. rewrite build_command_resolve.
      destruct (ClaudeProvider._resolve_model mo) as [id|] eqn:Hres; [|done].
      intros [= <-]. exists id. split; [done|]. by apply resolve_model_id in Hres. }
    destruct (main.determine_model _ _ _ _); try discriminate; by eapply Hb. }
  destruct (cli.dry_run args) eqn:Hdry.
  - left. rewrite orb_true_r. reflexivity.
  - right. rewrite orb_false_r.
    exists (if cli.verbose args
            then [Stderr ("Command: " +:+ join " " command)] else []),
      command, model_id, p.
    split; [by destruct (cli.verbose args)|].
    split; [by destruct (cli.verbose args)|done].
Qed.

Lemma main_body_shape (w : world) (args : cli.Namespace) :
  run_shape w args (main.main_body w args).
Proof.
  unfold main.main_body.
  destruct (info_or_config_flag args) eqn:Hflag.
  - (* an informational or configuration flag: nothing is spawned *)
    rewrite (parse_args_flag _ Hflag), bind_return.
    apply run_shape_bind; [by destruct (cli.validate_args args)|]. intros _ _.
    apply run_shape_bind; [apply init_quiet|]. intros config _.
    left.
    destruct (cli.list_providers args) eqn:H1; [reflexivity|].
    destruct (truthy (of_opt (cli.list_models args))) eqn:H2.
    { pose proof (list_models_quiet (py_str (of_opt (cli.list_models args)))) as Hq.
      destruct (main.list_models _) as [t [[]|e]]; unfold mbind, M_bind;
        simpl in *; by rewrite ?app_nil_r. }
    destruct (cli.config_path args) eqn:H3; [reflexivity|].
    destruct (cli.config_show args) eqn:H4; [reflexivity|].
    destruct (cli.config_reset args) eqn:H5.
    { unfold ConfigManager.reset_to_defaults, ConfigManager._save.
      by destruct (save_error w). }
    unfold info_or_config_flag, cli.any in Hflag. simpl in Hflag.
    rewrite H1, H2, H3, H4, H5 in Hflag. discriminate.
  - (* no such flag: a prompt, and the provider is invoked *)
    assert (cli.list_providers args = false
            ∧ truthy (of_opt (cli.list_models args)) = false
            ∧ cli.config_path args = false ∧ cli.config_show args = false
            ∧ cli.config_reset args = false) as (H1 & H2 & H3 & H4 & H5).
    { unfold info_or_config_flag, cli.any in Hflag. simpl in Hflag.
      destruct (cli.list_providers args), (truthy (of_opt (cli.list_models args))),
        (cli.config_path args), (cli.config_show args), (cli.config_reset args);
        done. }
    unfold cli.parse_args. fold (info_or_config_flag args). rewrite Hflag.
    cbn [negb].
    destruct (cli.prompt args) as [p|] eqn:Hprompt; [|by left].
    destruct (truthy (of_opt (Some p))); [|by left].
    cbn [negb]. rewrite bind_mret.
    apply run_shape_bind; [by destruct (cli.validate_args args)|]. intros _ _.
    apply run_shape_bind; [apply init_quiet|]. intros config _.
    rewrite H1, H2, H3, H4, H5.
    by apply (invoke_shape w args config p).
Qed.

(** A run of [main] spawns nothing, or ends by spawning one command built
    from the prompt, whose status it returns. *)
Lemma main_shape (w : world) (args : cli.Namespace) :
  spawned (main.main w args).1 = []
  ∨ ∃ pre command model_id p,
      main.main w args = (pre ++ [Spawn command], returncode w command)
      ∧ spawned pre = []
      ∧ command = [ "claude"; "--model"; model_id;
                    "Answer concisely in under 100 words: " +:+ p ]
      ∧ model_id ∈ dict_values ClaudeProvider.MODELS
      ∧ cli.prompt args = Some p
      ∧ cli.dry_run args = false
      ∧ which w "claude" = true
      ∧ info_or_config_flag args = false.
Proof.
  unfold main.main.
  destruct (main_body_shape w args) as [Hq|(pre & cmd & id & p & Hr & H)].
  - left. destruct (main.main_body w args) as [t [code|[]]]; simpl in *;
      rewrite ?spawned_app, ?Hq; done.
  - right. exists pre, cmd, id, p. by rewrite Hr.
Qed.

(** X7.  Whatever the environment and the arguments, a command that a run
    spawns is the only one it spawns and the last thing it does; the exit
    status of the run is the status of that command; and the command is
    claude, --model, one of the identifiers of [MODELS], and the prompt of
    the command line behind the conciseness instruction. *)
Theorem X7_spawned_command (w : world) (args : cli.Namespace)
    (command : list string) :
  command ∈ spawned (main.main w args).1 →
  ∃ pre model_id p,
    main.main w args = (pre ++ [Spawn command], returncode w command)
    ∧ spawned pre = []
    ∧ cli.prompt args = Some p
    ∧ model_id ∈ dict_values ClaudeProvider.MODELS
    ∧ command = [ "claude"; "--model"; model_id;
                  "Answer concisely in under 100 words: " +:+ p ].
Proof.
  intros Hin.
  destruct (main_shape w args) as [Hq|(pre & cmd & id & p & Hr & Hpre & H)].
  - rewrite Hq in Hin. by apply elem_of_nil in Hin.
  - rewrite Hr in Hin. simpl in Hin.
    rewrite spawned_app, Hpre in Hin. simpl in Hin.
    apply list_elem_of_singleton in Hin. subst cmd.
    exists pre, id, p.
    destruct H as (Hcmd & Hid & Hprompt & _). done.
Qed.

Lemma X7_spawned_command_witness :
  ∃ pre model_id p,
    main.main (example_world (FileJson (JObj sonnet_file))) (plain_args "hi")
    = (pre ++ [Spawn [ "claude"; "--model"; "claude-sonnet-4-5-20250929";
                       "Answer concisely in under 100 words: hi" ]],
       returncode (example_world (FileJson (JObj sonnet_file)))
         [ "claude"; "--model"; "claude-sonnet-4-5-20250929";
           "Answer concisely in under 100 words: hi" ])
    ∧ spawned pre = []
    ∧ cli.prompt (plain_args "hi") = Some p
    ∧ model_id ∈ dict_values ClaudeProvider.MODELS
    ∧ [ "claude"; "--model"; "claude-sonnet-4-5-20250929";
        "Answer concisely in under 100 words: hi" ]
      = [ "claude"; "--model"; model_id;
          "Answer concisely in under 100 words: " +:+ p ].
Proof.
  apply (X7_spawned_command (example_world (FileJson (JObj sonnet_file)))
           (plain_args "hi")).
  apply list_elem_of_here.
Defined.

(** X8.  Nothing is spawned in dry-run mode, nor when an informational or
    configuration flag is given (even next to a prompt), nor when the claude
    tool is not on the search path. *)
Theorem X8_nothing_spawned (w : world) (args : cli.Namespace) :
  cli.dry_run args = true
  ∨ info_or_config_flag args = true
  ∨ which w "claude" = false →
  spawned (main.main w args).1 = [].
Proof.
  intros H.
  destruct (main_shape w args)
    as [Hq|(pre & cmd & id & p & _ & _ & _ & _ & _ & Hdry & Hwhich & Hflag)];
    [done|].
  rewrite Hdry, Hwhich, Hflag in H. by destruct H as [?|[?|?]].
Qed.

Lemma X8_nothing_spawned_witness :
  spawned (main.main (example_world (FileJson (JObj sonnet_file))) dry_run_args).1
  = []
  ∧ spawned (main.main (no_tool_world FileAbsent) (plain_args "hi")).1 = []
  ∧ main.main (example_world (FileJson (JObj sonnet_file))) dry_run_args
    = ([ Stderr ("Command: claude --model claude-sonnet-4-5-20250929 "
                   +:+ "Answer concisely in under 100 words: hi") ],
       0%Z).
Proof.
  split; [|split; [|reflexivity]].
  - apply (X8_nothing_spawned (example_world (FileJson (JObj sonnet_file)))
             dry_run_args).
    left. reflexivity.
  - apply (X8_nothing_spawned (no_tool_world FileAbsent) (plain_args "hi")).
    right. right. reflexivity.
Defined.

(** Once the arguments are accepted without an informational or
    configuration flag and the configuration is loaded, [main] goes on with
    the provider. *)
Lemma main_body_invoke (w : world) (args : cli.Namespace) (t0 : list event)
    (cfg : gmap string json) :
  accepted args →
  info_or_config_flag args = false →
  ConfigManager._load w = (t0, Return cfg) →
  main.main_body w args
  = (let '(t, r) :=
       main.invoke w args
         {| ConfigManager.config_path := cfg_path w;
            ConfigManager._config := cfg |} in
     (t0 ++ t, r)).
Proof.
  intros [Hparse Hval] Hflag Hload.
  assert (cli.list_providers args = false
          ∧ truthy (of_opt (cli.list_models args)) = false
          ∧ cli.config_path args = false ∧ cli.config_show args = false
          ∧ cli.config_reset args = false) as (H1 & H2 & H3 & H4 & H5).
  { unfold info_or_config_flag, cli.any in Hflag. simpl in Hflag.
    destruct (cli.list_providers args), (truthy (of_opt (cli.list_models args))),
      (cli.config_path args), (cli.config_show args), (cli.config_reset args);
      done. }
  unfold main.main_body. rewrite Hparse, bind_return, Hval.
  unfold lift. rewrite bind_return.
  unfold ConfigManager.init. rewrite Hload.
  rewrite H1, H2, H3, H4, H5.
  unfold mbind, M_bind, mret, M_ret. by rewrite app_nil_r.
Qed.

(** X9.  When a run gets as far as the provider and the claude tool is not
    on the search path, the run says so and exits with status 1, without
    resolving a model or building a command: an unknown --model goes
    unreported. *)
Theorem X9_tool_missing (w : world) (args : cli.Namespace) (t0 : list event)
    (cfg : gmap string json) :
  accepted args →
  info_or_config_flag args = false →
  ConfigManager._load w = (t0, Return cfg) →
  py_or (of_opt (cli.provider args))
    (ConfigManager.get_default_provider
       {| ConfigManager.config_path := cfg_path w;
          ConfigManager._config := cfg |}) = JStr "claude" →
  which w "claude" = false →
  main.main w args
  = (t0 ++ [Stderr "Error: claude CLI not found. Please install it first."],
     1%Z).
Proof.
  intros Hacc Hflag Hload Hname Hwhich.
  unfold main.main. rewrite (main_body_invoke w args t0 cfg Hacc Hflag Hload).
  unfold main.invoke. rewrite Hname.
  change (main.get_provider (JStr "claude")) with (Return ClaudeProvider.provider).
  unfold lift. rewrite bind_return.
  change (check_available ClaudeProvider.provider (which w))
    with (which w "claude").
  rewrite Hwhich. reflexivity.
Qed.

Lemma X9_tool_missing_witness :
  main.main (no_tool_world (FileJson (JObj sonnet_file)))
    {| cli.prompt := Some "hi"; cli.provider := None; cli.model := Some "gpt-4";
       cli.list_providers := false; cli.list_models := None;
       cli.config_path := false; cli.config_show := false;
       cli.config_reset := false; cli.verbose := true; cli.dry_run := false |}
  = ([Stderr "Error: claude CLI not found. Please install it first."], 1%Z).
Proof.
  apply (X9_tool_missing (no_tool_world (FileJson (JObj sonnet_file))) _ []
           (ConfigManager.merge_dict sonnet_file)); try reflexivity.
  split; reflexivity.
Defined.

(** X10.  An explicit --provider other than claude (and not empty) is
    refused once the arguments are accepted and the configuration loaded:
    the run reports the unknown provider with the list of providers and
    exits with status 1, whatever the configuration stores. *)
Theorem X10_unknown_provider (w : world) (args : cli.Namespace) (s : string)
    (t0 : list event) (cfg : gmap string json) :
  accepted args →
  info_or_config_flag args = false →
  ConfigManager._load w = (t0, Return cfg) →
  cli.provider args = Some s →
  s ≠ EmptyString →
  s ≠ "claude" →
  main.main w args
  = (t0 ++ [Stderr ("Error: Unknown provider '" +:+ s
                      +:+ "'. Available: claude")],
     1%Z).
Proof.
  intros Hacc Hflag Hload Hprov Hne Hs.
  unfold main.main. rewrite (main_body_invoke w args t0 cfg Hacc Hflag Hload).
  unfold main.invoke, py_or. rewrite Hprov.
  cbn [of_opt truthy]. rewrite bool_decide_eq_false_2 by done. cbn [negb].
  unfold main.get_provider. cbn [main.registry_get main.providers].
  rewrite decide_False by done.
  unfold lift, mbind, M_bind. cbn [fst snd exn_str py_str].
  rewrite app_nil_r. reflexivity.
Qed.

Lemma X10_unknown_provider_witness :
  main.main (example_world (FileJson (JObj sonnet_file))) gemini_args
  = ([Stderr "Error: Unknown provider 'gemini'. Available: claude"], 1%Z).
Proof.
  apply (X10_unknown_provider (example_world (FileJson (JObj sonnet_file)))
           gemini_args "gemini" [] (ConfigManager.merge_dict sonnet_file));
    try reflexivity; try discriminate.
  split; reflexivity.
Defined.

(** ** The command orchestrator: arguments and the configuration file *)

(** X11.  Without an informational or configuration flag a prompt is
    required, and the empty string does not count: the run is a usage error
    with status 2 and does nothing else; the configuration is not even
    loaded. *)
Theorem X11_prompt_required (w : world) (args : cli.Namespace) :
  info_or_config_flag args = false →
  cli.prompt args = None ∨ cli.prompt args = Some EmptyString →
  main.main w args
  = ([ParserError "the following arguments are required: prompt"], 2%Z).
Proof.
  intros Hflag Hprompt. unfold main.main, main.main_body, cli.parse_args.
  fold (info_or_config_flag args). rewrite Hflag.
  by destruct Hprompt as [-> | ->].
Qed.

Lemma X11_prompt_required_witness :
  main.main (example_world FileAbsent) (plain_args EmptyString)
  = ([ParserError "the following arguments are required: prompt"], 2%Z).
Proof.
  apply (X11_prompt_required (example_world FileAbsent) (plain_args EmptyString)).
  - reflexivity.
  - right. reflexivity.
Defined.

Lemma strip_all_space (s : string) : all_space s = true → strip s = EmptyString.
Proof.
  unfold strip. intros H.
  assert (lstrip s = EmptyString) as ->; [|done].
  induction s as [|c s IH]; [done|]. simpl in *.
  apply andb_true_iff in H as [-> H]. by apply IH.
Qed.

(** X12.  --list-models with a provider name made of white space only is
    refused by [validate_args]: the run reports that --list-models requires
    a provider name and exits with status 1, whatever else is on the command
    line, before the configuration is loaded. *)
Theorem X12_blank_list_models (w : world) (args : cli.Namespace) (s : string) :
  cli.list_models args = Some s →
  s ≠ EmptyString →
  all_space s = true →
  main.main w args
  = ([Stderr "Error: --list-models requires a provider name"], 1%Z).
Proof.
  intros Hlist Hne Hspace.
  assert (truthy (of_opt (cli.list_models args)) = true) as Htruthy.
  { rewrite Hlist. simpl. by rewrite bool_decide_eq_false_2. }
  apply (main_rejected w args "--list-models requires a provider name").
  - unfold info_or_config_flag, cli.any. simpl. rewrite Htruthy.
    by destruct (cli.list_providers args).
  - unfold cli.validate_args. rewrite Htruthy, Hlist. simpl.
    by rewrite (strip_all_space _ Hspace).
Qed.

Lemma X12_blank_list_models_witness :
  main.main (example_world FileAbsent) (list_models_args "  ")
  = ([Stderr "Error: --list-models requires a provider name"], 1%Z).
Proof.
  apply (X12_blank_list_models (example_world FileAbsent)
           (list_models_args "  ") "  ");
    [reflexivity | discriminate | reflexivity].
Defined.

(** X13.  --list-models NAME, once accepted and with the configuration
    loaded, prints the three models of claude with haiku marked as the
    default and exits with status 0 when NAME is claude, and for any other
    name reports the unknown provider and exits with status 1.  Whether the
    tool is installed plays no part, and neither do the prompt and the other
    options. *)
Theorem X13_list_models (w : world) (args : cli.Namespace) (s : string)
    (t0 : list event) (cfg : gmap string json) :
  accepted args →
  cli.list_providers args = false →
  cli.list_models args = Some s →
  s ≠ EmptyString →
  ConfigManager._load w = (t0, Return cfg) →
  main.main w args
  = if decide (s = "claude")
    then (t0 ++ [ Stdout "Available models for claude:";
                  Stdout "  - haiku (default)";
                  Stdout "  - sonnet";
                  Stdout "  - opus" ],
          0%Z)
    else (t0 ++ [ Stderr ("Error: Unknown provider '" +:+ s
                            +:+ "'. Available: claude") ],
          1%Z).
Proof.
  intros [Hparse Hval] Hproviders Hlist Hne Hload.
  unfold main.main, main.main_body. rewrite Hparse, bind_return, Hval.
  unfold lift. rewrite bind_return.
  unfold ConfigManager.init. rewrite Hload, Hproviders, Hlist.
  cbn [of_opt truthy py_str]. rewrite bool_decide_eq_false_2 by done.
  cbn [negb]. unfold main.list_models, main.get_provider.
  cbn [main.registry_get main.providers].
  case_decide as Hs.
  - subst s. unfold mbind, M_bind, mret, M_ret. simpl.
    by rewrite app_nil_r.
  - unfold mbind, M_bind, mret, M_ret, emit, raise. cbn [fst snd py_str].
    by rewrite app_nil_r.
Qed.

Lemma X13_list_models_witness :
  main.main (no_tool_world (FileJson (JObj sonnet_file)))
    (list_models_args "claude")
  = ([ Stdout "Available models for claude:";
       Stdout "  - haiku (default)";
       Stdout "  - sonnet";
       Stdout "  - opus" ],
     0%Z)
  ∧ main.main (no_tool_world (FileJson (JObj sonnet_file)))
      (list_models_args "Claude")
    = ([ Stderr "Error: Unknown provider 'Claude'. Available: claude" ], 1%Z).
Proof.
  split.
  - apply (X13_list_models (no_tool_world (FileJson (JObj sonnet_file)))
             (list_models_args "claude") "claude" []
             (ConfigManager.merge_dict sonnet_file));
      try reflexivity; try discriminate.
    split; reflexivity.
  - apply (X13_list_models (no_tool_world (FileJson (JObj sonnet_file)))
             (list_models_args "Claude") "Claude" []
             (ConfigManager.merge_dict sonnet_file));
      try reflexivity; try discriminate.
    split; reflexivity.
Defined.

Lemma list_providers_file (w : world) (st : config_file_state) :
  main.list_providers (with_file_state w st) = main.list_providers w.
Proof. reflexivity. Qed.

Lemma reset_to_defaults_file (w : world) (st : config_file_state)
    (config : ConfigManager.t) :
  ConfigManager.reset_to_defaults (with_file_state w st) config
  = ConfigManager.reset_to_defaults w config.
Proof. reflexivity. Qed.

Lemma invoke_file (w : world) (st : config_file_state) (args : cli.Namespace)
    (config : ConfigManager.t) :
  main.invoke (with_file_state w st) args config = main.invoke w args config.
Proof. reflexivity. Qed.

Lemma bind_events {A B : Type} (t : list event) (a : A) (f : A → M B) :
  ((t, Return a) : M A) ≫= f = (let '(t', r) := f a in (t ++ t', r)).
Proof. reflexivity. Qed.

(** With the same mapping loaded, two runs differ only in what loading
    printed or wrote. *)
Lemma main_same_loaded (w : world) (st1 st2 : config_file_state)
    (args : cli.Namespace) (t1 t2 : list event) (cfg : gmap string json) :
  accepted args →
  ConfigManager._load (with_file_state w st1) = (t1, Return cfg) →
  ConfigManager._load (with_file_state w st2) = (t2, Return cfg) →
  ∃ t code,
    main.main (with_file_state w st1) args = (t1 ++ t, code)
    ∧ main.main (with_file_state w st2) args = (t2 ++ t, code).
Proof.
  intros [Hparse Hval] Hload1 Hload2.
  unfold main.main, main.main_body. rewrite Hparse, !bind_return, Hval.
  unfold lift. rewrite !bind_return.
  unfold ConfigManager.init. rewrite Hload1, Hload2.
  rewrite !(bind_events _ cfg). cbn [mret M_ret]. rewrite !app_nil_r.
  rewrite !(bind_events _ (ConfigManager.Build_t _ _)).
  set (r1 := (if cli.list_providers args then _ else _)).
  clearbody r1.
  destruct r1 as [t [code|e]].
  - by exists t, code.
  - destruct e; cbn [fst snd]; rewrite <- ?app_assoc; by eexists _, _.
Qed.

(** X14.  What the state of the configuration file does to an accepted
    run.  A missing file, and a file whose reading raises [OSError] or
    [JSONDecodeError], are no obstacle: the run is the run against an empty
    configuration file, preceded by what loading does, which is to write the
    default configuration when the file is missing (or warn that it cannot
    be written) and to print two warning lines when the file is unreadable.
    A file whose reading raises anything else (invalid UTF-8, say) is fatal:
    the run reports that error and exits with status 1. *)
Theorem X14_fallback_to_defaults (w : world) (args : cli.Namespace) :
  accepted args →
  main.main (with_file_state w FileAbsent) args
  = (match save_error w with
     | None => WriteConfig ConfigManager.DEFAULT_CONFIG
     | Some err =>
         Stdout ("Warning: Failed to save config to " +:+ cfg_path w
                   +:+ ": " +:+ err)
     end :: (main.main (with_file_state w (FileJson (JObj ∅))) args).1,
     (main.main (with_file_state w (FileJson (JObj ∅))) args).2)
  ∧ (∀ err,
       main.main (with_file_state w (FileUnreadable err)) args
       = (Stdout ("Warning: Failed to load config from " +:+ cfg_path w
                    +:+ ": " +:+ err)
            :: Stdout "Using default configuration."
            :: (main.main (with_file_state w (FileJson (JObj ∅))) args).1,
          (main.main (with_file_state w (FileJson (JObj ∅))) args).2))
  ∧ (∀ text,
       main.main (with_file_state w (FileRaises text)) args
       = ([Stderr ("Error: " +:+ text)], 1%Z)).
Proof.
  intros Hacc.
  assert (ConfigManager._load (with_file_state w (FileJson (JObj ∅)))
          = ([], Return ConfigManager.DEFAULT_CONFIG)) as Hload2.
  { unfold ConfigManager._load. simpl. by rewrite merge_dict_empty. }
  split; [|split].
  - assert (ConfigManager._load (with_file_state w FileAbsent)
            = ([match save_error w with
                | None => WriteConfig ConfigManager.DEFAULT_CONFIG
                | Some err =>
                    Stdout ("Warning: Failed to save config to " +:+ cfg_path w
                              +:+ ": " +:+ err)
                end], Return ConfigManager.DEFAULT_CONFIG)) as Hload1.
    { unfold ConfigManager._load, ConfigManager._save. simpl.
      by destruct (save_error w). }
    by destruct (main_same_loaded w FileAbsent (FileJson (JObj ∅)) args _ []
                   ConfigManager.DEFAULT_CONFIG Hacc Hload1 Hload2)
      as (t & code & -> & ->).
  - intros err.
    assert (ConfigManager._load (with_file_state w (FileUnreadable err))
            = ([ Stdout ("Warning: Failed to load config from " +:+ cfg_path w
                           +:+ ": " +:+ err);
                 Stdout "Using default configuration." ],
               Return ConfigManager.DEFAULT_CONFIG)) as Hload1 by reflexivity.
    by destruct (main_same_loaded w (FileUnreadable err) (FileJson (JObj ∅)) args
                   _ [] ConfigManager.DEFAULT_CONFIG Hacc Hload1 Hload2)
      as (t & code & -> & ->).
  - intros text. destruct Hacc as [Hparse Hval].
    unfold main.main, main.main_body. rewrite Hparse, bind_return, Hval.
    unfold lift. rewrite bind_return. reflexivity.
Qed.

Lemma X14_fallback_to_defaults_witness :
  main.main
    (with_file_state (example_world FileAbsent) (FileUnreadable "Expecting value"))
    (plain_args "hi")
  = ([ Stdout ("Warning: Failed to load config from "
                 +:+ "/home/u/.config/askai/config.json: Expecting value");
       Stdout "Using default configuration.";
       Spawn [ "claude"; "--model"; "claude-haiku-4-5-20251001";
               "Answer concisely in under 100 words: hi" ] ],
     0%Z)
  ∧ main.main
      (with_file_state (example_world FileAbsent)
         (FileRaises "'utf-8' codec can't decode byte 0xff in position 0"))
      (plain_args "hi")
    = ([ Stderr "Error: 'utf-8' codec can't decode byte 0xff in position 0" ],
       1%Z).
Proof.
  destruct (X14_fallback_to_defaults (example_world FileAbsent) (plain_args "hi"))
    as (_ & Hunreadable & Hraises); [split; reflexivity|].
  split.
  - rewrite Hunreadable. reflexivity.
  - apply Hraises.
Defined.

(** ** Model names *)

Lemma dict_get_keys (k : string) (d : odict) :
  is_Some (dict_get k d) ↔ k ∈ dict_keys d.
Proof.
  unfold dict_keys. induction d as [|[k' v'] d IH]; simpl.
  - rewrite elem_of_nil. split; [by intros [? ?]|done].
  - rewrite elem_of_cons. case_decide; [by split; eauto|].
    rewrite IH. split; [by right|]. by intros [?|?].
Qed.

(** X15.  The model names [_resolve_model] accepts are exactly those whose
    lower-cased form is a key of [MODEL_ALIASES] (the three short names and
    the nine version aliases); every other name raises.  What it returns is
    always one of the fully-qualified identifiers of [MODELS], the one of
    the alias's target. *)
Theorem X15_accepted_model_names (m : string) :
  ((∃ model_id, ClaudeProvider._resolve_model (Some m) = Return model_id)
   ↔ lower m ∈ dict_keys ClaudeProvider.MODEL_ALIASES)
  ∧ (∀ model_id,
       ClaudeProvider._resolve_model (Some m) = Return model_id →
       model_id ∈ dict_values ClaudeProvider.MODELS
       ∧ ∃ target, dict_get (lower m) ClaudeProvider.MODEL_ALIASES = Some target
                   ∧ dict_get target ClaudeProvider.MODELS = Some model_id).
Proof.
  split.
  - rewrite <- dict_get_keys. fold (canonical_name m). split.
    + intros [id Hres]. destruct (canonical_name m) as [c|] eqn:Hc; [done|].
      rewrite (resolve_unknown _ Hc) in Hres. discriminate.
    + intros [c Hc]. destruct (resolve_alias _ _ Hc) as [id [_ Hres]]. eauto.
  - intros id Hres. split; [by apply resolve_model_id in Hres|].
    destruct (canonical_name m) as [c|] eqn:Hc.
    + destruct (resolve_alias _ _ Hc) as [id' [Hid Hres']].
      exists c. split; [done|]. congruence.
    + rewrite (resolve_unknown _ Hc) in Hres. discriminate.
Qed.

Lemma X15_accepted_model_names_witness :
  "claude-opus-4-1-20250805" ∈ dict_values ClaudeProvider.MODELS
  ∧ ∃ target, dict_get (lower "Opus-4-1") ClaudeProvider.MODEL_ALIASES = Some target
              ∧ dict_get target ClaudeProvider.MODELS
                = Some "claude-opus-4-1-20250805".
Proof.
  destruct (X15_accepted_model_names "Opus-4-1") as [_ H].
  apply (H "claude-opus-4-1-20250805"). reflexivity.
Defined.

(** ** The command orchestrator: informational and configuration flags *)

(** X16.  --list-providers comes first: once the arguments are accepted and
    the configuration loaded, the run prints the heading and one line for
    claude, marked with a check when the tool is on the search path and with
    a cross when it is not, and exits with status 0, whatever other flags or
    prompt were given. *)
Theorem X16_list_providers (w : world) (args : cli.Namespace)
    (t0 : list event) (cfg : gmap string json) :
  accepted args →
  cli.list_providers args = true →
  ConfigManager._load w = (t0, Return cfg) →
  main.main w args
  = (t0 ++ [ Stdout "Available providers:";
             Stdout ("  " +:+ (if which w "claude"
                               then main.check_mark else main.cross_mark)
                       +:+ " claude (default: haiku, available: haiku, sonnet, opus)") ],
     0%Z).
Proof.
  intros [Hparse Hval] Hproviders Hload.
  unfold main.main, main.main_body. rewrite Hparse, bind_return, Hval.
  unfold lift. rewrite bind_return.
  unfold ConfigManager.init. rewrite Hload, Hproviders.
  unfold mbind, M_bind, mret, M_ret. simpl.
  by rewrite app_nil_r.
Qed.

Lemma X16_list_providers_witness :
  main.main (no_tool_world (FileJson (JObj sonnet_file))) list_providers_args
  = ([ Stdout "Available providers:";
       Stdout ("  " +:+ main.cross_mark
                 +:+ " claude (default: haiku, available: haiku, sonnet, opus)") ],
     0%Z).
Proof.
  apply (X16_list_providers (no_tool_world (FileJson (JObj sonnet_file)))
           list_providers_args [] (ConfigManager.merge_dict sonnet_file));
    try reflexivity.
  split; reflexivity.
Defined.

(** X17.  --config-reset alone, once accepted and with the configuration
    loaded, writes exactly the compiled-in default mapping (or warns when the
    file cannot be written), says so, shows that mapping and exits with
    status 0, whatever the file held; and a file that holds what was written
    loads as that same default mapping. *)
Theorem X17_config_reset (w : world) (args : cli.Namespace)
    (t0 : list event) (cfg : gmap string json) :
  accepted args →
  cli.list_providers args = false →
  truthy (of_opt (cli.list_models args)) = false →
  cli.config_path args = false →
  cli.config_show args = false →
  cli.config_reset args = true →
  ConfigManager._load w = (t0, Return cfg) →
  main.main w args
  = (t0 ++ [ match save_error w with
             | None => WriteConfig ConfigManager.DEFAULT_CONFIG
             | Some err =>
                 Stdout ("Warning: Failed to save config to " +:+ cfg_path w
                           +:+ ": " +:+ err)
             end;
             Stdout "Configuration reset to defaults";
             StdoutConfig ConfigManager.DEFAULT_CONFIG ],
     0%Z)
  ∧ ConfigManager._load (with_config_file w (JObj ConfigManager.DEFAULT_CONFIG))
    = ([], Return ConfigManager.DEFAULT_CONFIG).
Proof.
  intros [Hparse Hval] H1 H2 H3 H4 H5 Hload. split.
  - unfold main.main, main.main_body. rewrite Hparse, bind_return, Hval.
    unfold lift. rewrite bind_return.
    unfold ConfigManager.init. rewrite Hload, H1, H2, H3, H4, H5.
    unfold ConfigManager.reset_to_defaults, ConfigManager._save.
    destruct (save_error w); unfold mbind, M_bind, mret, M_ret; simpl;
      by rewrite app_nil_r.
  - unfold ConfigManager._load. simpl.
    by rewrite <- merge_dict_empty, merge_dict_again.
Qed.

Lemma X17_config_reset_witness :
  main.main (example_world (FileJson (JObj words_500_file))) config_reset_args
  = ([ WriteConfig ConfigManager.DEFAULT_CONFIG;
       Stdout "Configuration reset to defaults";
       StdoutConfig ConfigManager.DEFAULT_CONFIG ],
     0%Z).
Proof.
  destruct (X17_config_reset (example_world (FileJson (JObj words_500_file)))
              config_reset_args [] (ConfigManager.merge_dict words_500_file))
    as [Hrun _]; [split; reflexivity | reflexivity .. | ].
  rewrite Hrun. reflexivity.
Defined.
